(** * Verification of the code-quality heuristic engine (src/src/codeAnalyzer.ts)

    The development embeds the [CodeAnalyzer] class of the "coding buddy"
    editor add-on: the per-line heuristics ([checkPythonSyntax],
    [checkPythonWarnings], [calculateComplexity]), the document analysis
    ([analyzePythonCode], [assessCodeQuality]), the emotion selection
    ([updateBotEmotion]), the result cache driven by [analyzeFile], the
    subscriptions of [setupFileWatcher] and the accessors.  Of
    src/src/botInterface.ts it embeds the panel and reminder-timer handling
    of [BotInterface], in the version of the class that has the water
    reminder.

    Conventions.
    - A JavaScript string is its sequence of UTF-16 code units, a [list N].
      String literals of the source are written [lit "..."].
    - Array lengths and counters are [nat].
    - The object state ([currentFile], [analysisResults], [onEmotionChange])
      is threaded explicitly through a small state-and-exception monad. *)

From Stdlib Require Import List NArith Arith Bool Lia String Ascii Decimal DecimalNat Sorted.
From stdpp Require Import base option gmap.
Import ListNotations.

Local Open Scope nat_scope.
Local Open Scope list_scope.

(** ** JavaScript strings *)

Module JS.

Abbreviation jsstring := (list N).

(** A source literal, character by character. *)
Fixpoint lit (s : string) : jsstring :=
  match s with
  | EmptyString => []
  | String a s' => N_of_ascii a :: lit s'
  end.

(** [s.startsWith(p)]. *)
Fixpoint startsWith (s p : jsstring) : bool :=
  match p, s with
  | [], _ => true
  | _ :: _, [] => false
  | x :: p', c :: s' => N.eqb c x && startsWith s' p'
  end.

(** [s.includes(p)]. *)
Fixpoint includes (s p : jsstring) : bool :=
  startsWith s p ||
  match s with
  | [] => false
  | _ :: s' => includes s' p
  end.

(** ECMAScript [WhiteSpace] and [LineTerminator] code points: what
    [String.prototype.trim] strips and what [\s] matches. *)
Definition isWhiteSpace (c : N) : bool :=
  (N.eqb c 9 || N.eqb c 10 || N.eqb c 11 || N.eqb c 12 || N.eqb c 13 ||
   N.eqb c 32 || N.eqb c 160 || N.eqb c 5760 ||
   (N.leb 8192 c && N.leb c 8202) ||
   N.eqb c 8232 || N.eqb c 8233 || N.eqb c 8239 || N.eqb c 8287 ||
   N.eqb c 12288 || N.eqb c 65279)%N.

Fixpoint dropWhile (f : N -> bool) (s : jsstring) : jsstring :=
  match s with
  | [] => []
  | c :: s' => if f c then dropWhile f s' else s
  end.

Definition trimStart (s : jsstring) : jsstring := dropWhile isWhiteSpace s.
Definition trimEnd (s : jsstring) : jsstring := rev (dropWhile isWhiteSpace (rev s)).
Definition trim (s : jsstring) : jsstring := trimEnd (trimStart s).

(** [s.split("\n")]: never empty, the empty string gives one empty line. *)
Fixpoint split_nl (s : jsstring) : list jsstring :=
  match s with
  | [] => [[]]
  | c :: s' =>
      if N.eqb c 10 then [] :: split_nl s'
      else match split_nl s' with
           | l :: ls => (c :: l) :: ls
           | [] => [[c]]
           end
  end.

(** [(s.match(/c/g) || []).length] for a one-character pattern. *)
Definition countChar (c : N) (s : jsstring) : nat :=
  List.length (List.filter (N.eqb c) s).

(** Decimal rendering of a non-negative integer, as template literals do. *)
Fixpoint digits (d : Decimal.uint) : jsstring :=
  match d with
  | Decimal.Nil => []
  | Decimal.D0 d => 48%N :: digits d
  | Decimal.D1 d => 49%N :: digits d
  | Decimal.D2 d => 50%N :: digits d
  | Decimal.D3 d => 51%N :: digits d
  | Decimal.D4 d => 52%N :: digits d
  | Decimal.D5 d => 53%N :: digits d
  | Decimal.D6 d => 54%N :: digits d
  | Decimal.D7 d => 55%N :: digits d
  | Decimal.D8 d => 56%N :: digits d
  | Decimal.D9 d => 57%N :: digits d
  end.

Definition toString (n : nat) : jsstring := digits (Nat.to_uint n).

(** [\w] of a regular expression without the [u] and [i] flags. *)
Definition isWordChar (c : N) : bool :=
  ((N.leb 65 c && N.leb c 90) || (N.leb 97 c && N.leb c 122) ||
   (N.leb 48 c && N.leb c 57) || N.eqb c 95)%N.

(** The token [tok] sits at the head of [s] and a word boundary follows. *)
Definition tokenAt (s tok : jsstring) : bool :=
  startsWith s tok &&
  match skipn (List.length tok) s with
  | [] => true
  | c :: _ => negb (isWordChar c)
  end.

(** [s.match(/\b(TODO|FIXME)\b/)?.[0]]: the leftmost match, if any.
    [prev] is the code unit before the current position. *)
Fixpoint matchNote (prev : option N) (s : jsstring) : option jsstring :=
  match s with
  | [] => None
  | c :: s' =>
      let boundary := match prev with
                      | None => true
                      | Some p => negb (isWordChar p)
                      end in
      if boundary && tokenAt s (lit "TODO") then Some (lit "TODO")
      else if boundary && tokenAt s (lit "FIXME") then Some (lit "FIXME")
      else matchNote (Some c) s'
  end.

(** [/\s+$/.test(s)]: the last code unit is white space. *)
Definition endsWithSpace (s : jsstring) : bool :=
  match rev s with
  | [] => false
  | c :: _ => isWhiteSpace c
  end.

(** [/^\t+/.test(s)]. *)
Definition startsWithTab (s : jsstring) : bool :=
  match s with
  | 9%N :: _ => true
  | _ => false
  end.

(** [/^(\t+ +| +\t+)/.test(s)]. *)
Definition mixedIndent (s : jsstring) : bool :=
  match s with
  | 9%N :: _ =>
      match dropWhile (N.eqb 9) s with 32%N :: _ => true | _ => false end
  | 32%N :: _ =>
      match dropWhile (N.eqb 32) s with 9%N :: _ => true | _ => false end
  | _ => false
  end.

End JS.
Import JS.

(** ** Data model (interface [CodeAnalysisResult]) *)

Inductive Quality := good | improving | needs_work.

Record CodeAnalysisResult := {
  hasErrors : bool;
  errorCount : nat;
  hasWarnings : bool;
  warningCount : nat;
  lineCount : nat;
  complexity : nat;
  quality : Quality;
  lastError : option jsstring;
  lastWarning : option jsstring;
  lastSuccess : option jsstring
}.

(** ** Line classifier and document analyzer *)

(** The template literal [`Line ${lineNumber}${rest}`]. *)
Definition lineMsg (lineNumber : nat) (rest : string) : jsstring :=
  lit "Line " ++ toString lineNumber ++ lit rest.

(** [hasMatchingExcept]: the loop over [lines[tryLineIndex + 1 ..]]. *)
Fixpoint scanExcept (rest : list jsstring) : bool :=
  match rest with
  | [] => false
  | l :: rest' =>
      if startsWith (trim l) (lit "except") then true
      else if startsWith (trim l) (lit "def ") || startsWith (trim l) (lit "class ")
           then false
           else scanExcept rest'
  end.

Definition hasMatchingExcept (lines : list jsstring) (tryLineIndex : nat) : bool :=
  scanExcept (skipn (tryLineIndex + 1) lines).

(** One iteration of the loop of [checkPythonSyntax], at index [i]. *)
Definition syntaxStep (lines : list jsstring) (errors : list jsstring) (i : nat)
  : list jsstring :=
  let line := nth i lines [] in
  let lineNumber := i + 1 in
  let errors :=
    if includes line (lit "print(") && negb (includes line (lit ")"))
    then errors ++ [lineMsg lineNumber ": Missing closing parenthesis in print statement"]
    else errors in
  let errors :=
    if includes line (lit "if ") && negb (includes line (lit ":")) &&
       (0 <? List.length (trim line))
    then errors ++ [lineMsg lineNumber ": Missing colon after if statement"]
    else errors in
  let errors :=
    if includes line (lit "def ") && negb (includes line (lit ":")) &&
       (0 <? List.length (trim line))
    then errors ++ [lineMsg lineNumber ": Missing colon after function definition"]
    else errors in
  let errors :=
    if includes line (lit "for ") && negb (includes line (lit ":")) &&
       (0 <? List.length (trim line))
    then errors ++ [lineMsg lineNumber ": Missing colon after for loop"]
    else errors in
  let errors :=
    if includes line (lit "while ") && negb (includes line (lit ":")) &&
       (0 <? List.length (trim line))
    then errors ++ [lineMsg lineNumber ": Missing colon after while loop"]
    else errors in
  let errors :=
    if includes line (lit "try:") && negb (hasMatchingExcept lines i)
    then errors ++ [lineMsg lineNumber ": try block without matching except"]
    else errors in
  let singleQuotes := countChar 39%N line in
  let doubleQuotes := countChar 34%N line in
  let errors :=
    if negb (singleQuotes mod 2 =? 0) || negb (doubleQuotes mod 2 =? 0)
    then errors ++ [lineMsg lineNumber ": Unmatched quotes"]
    else errors in
  if includes line (lit "=") && includes line (lit "+") &&
     includes line (lit "undefined")
  then errors ++ [lineMsg lineNumber ": Possible undefined variable usage"]
  else errors.

Definition checkPythonSyntax (content : jsstring) : list jsstring :=
  let lines := split_nl content in
  fold_left (syntaxStep lines) (seq 0 (List.length lines)) [].

(** The body of the loop of [calculateComplexity]. *)
Definition complexityStep (complexity : nat) (line : jsstring) : nat :=
  let trimmed := trim line in
  let complexity :=
    if startsWith trimmed (lit "if ") || startsWith trimmed (lit "elif ")
    then complexity + 1 else complexity in
  let complexity :=
    if startsWith trimmed (lit "for ") || startsWith trimmed (lit "while ")
    then complexity + 2 else complexity in
  let complexity :=
    if startsWith trimmed (lit "try:") || startsWith trimmed (lit "except ")
    then complexity + 1 else complexity in
  let complexity :=
    if startsWith trimmed (lit "def ") || startsWith trimmed (lit "class ")
    then complexity + 1 else complexity in
  let complexity :=
    if includes trimmed (lit " and ") || includes trimmed (lit " or ")
    then complexity + 1 else complexity in
  let complexity :=
    if includes trimmed (lit "lambda ") then complexity + 2 else complexity in
  let indentLevel := List.length line - List.length (trimStart line) in
  if 8 <? indentLevel then complexity + 1 else complexity.

Definition calculateComplexity (lines : list jsstring) : nat :=
  fold_left complexityStep lines 0.

(** One iteration of the loop of [checkPythonWarnings], at index [i]. *)
Definition warningStep (lines : list jsstring) (warnings : list jsstring) (i : nat)
  : list jsstring :=
  let line := nth i lines [] in
  let lineNumber := i + 1 in
  let warnings :=
    if 120 <? List.length line
    then warnings ++ [lineMsg lineNumber ": Line exceeds 120 characters"]
    else warnings in
  let warnings :=
    if endsWithSpace line && (0 <? List.length (trim line))
    then warnings ++ [lineMsg lineNumber ": Trailing whitespace"]
    else warnings in
  let warnings :=
    match matchNote None line with
    | Some tok =>
        warnings ++ [lineMsg lineNumber ": Contains " ++ tok ++ lit " note"]
    | None => warnings
    end in
  let warnings :=
    if startsWithTab line
    then warnings ++ [lineMsg lineNumber ": Uses tab indentation (prefer spaces)"]
    else warnings in
  if mixedIndent line
  then warnings ++ [lineMsg lineNumber ": Mixed indentation (tabs and spaces)"]
  else warnings.

Definition checkPythonWarnings (content : jsstring) : list jsstring :=
  let lines := split_nl content in
  fold_left (warningStep lines) (seq 0 (List.length lines)) [].

Definition assessCodeQuality (lines : list jsstring) (complexity errorCount : nat)
  : Quality :=
  if (errorCount =? 0) && (complexity <? 10) && (0 <? List.length lines) then good
  else if (errorCount =? 0) && (0 <? List.length lines) then improving
  else needs_work.

Definition analyzePythonCode (content : jsstring) : CodeAnalysisResult :=
  let lines :=
    List.filter (fun line => 0 <? List.length (trim line)) (split_nl content) in
  let lineCount := List.length lines in
  let syntaxErrors := checkPythonSyntax content in
  let hasErrors := 0 <? List.length syntaxErrors in
  let errorCount := List.length syntaxErrors in
  let warnings := checkPythonWarnings content in
  let hasWarnings := 0 <? List.length warnings in
  let warningCount := List.length warnings in
  let complexity := calculateComplexity lines in
  let quality := assessCodeQuality lines complexity errorCount in
  let lastError := if hasErrors then nth_error syntaxErrors 0 else None in
  let lastWarning := if hasWarnings then nth_error warnings 0 else None in
  let lastSuccess :=
    if negb hasErrors && (0 <? lineCount) then Some (lit "Code looks good!")
    else None in
  {| hasErrors := hasErrors;
     errorCount := errorCount;
     hasWarnings := hasWarnings;
     warningCount := warningCount;
     lineCount := lineCount;
     complexity := complexity;
     quality := quality;
     lastError := lastError;
     lastWarning := lastWarning;
     lastSuccess := lastSuccess |}.

(** ** Object state and control flow *)

(** A thrown value; its content is never inspected. *)
Inductive Error := JsError (message : jsstring).

Inductive Exc (A : Type) : Type :=
| Ok (a : A)
| Throw (e : Error).
Arguments Ok {A} a.
Arguments Throw {A} e.

(** The fields of a [CodeAnalyzer] instance, and two observation fields:
    [emitted] records the calls made to the listener, oldest first, and
    [errorLog] the faults passed to [console.error]. *)
Record State := {
  currentFile : option jsstring;
  analysisResults : gmap jsstring CodeAnalysisResult;
  onEmotionChange : option (jsstring -> jsstring -> Exc unit);
  emitted : list (jsstring * jsstring);
  errorLog : list Error
}.

Definition M (A : Type) : Type := State -> Exc A * State.

Definition ret {A} (a : A) : M A := fun st => (Ok a, st).

Definition bind {A B} (m : M A) (f : A -> M B) : M B :=
  fun st =>
    match m st with
    | (Ok a, st') => f a st'
    | (Throw e, st') => (Throw e, st')
    end.

Notation "'let!' x ':=' m 'in' k" := (bind m (fun x => k))
  (at level 10, x name, m at level 100, k at level 200).
Notation "'do!' m 'in' k" := (bind m (fun _ => k))
  (at level 10, m at level 100, k at level 200).

(** [try { body } catch (error) { handler }]. *)
Definition tryCatch {A} (body : M A) (handler : Error -> M A) : M A :=
  fun st =>
    match body st with
    | (Ok a, st') => (Ok a, st')
    | (Throw e, st') => handler e st'
    end.

Definition gets {A} (f : State -> A) : M A := fun st => (Ok (f st), st).

Definition liftExc {A} (r : Exc A) : M A := fun st => (r, st).

Definition setCurrentFile (fileName : jsstring) : M unit :=
  fun st =>
    (Ok tt, {| currentFile := Some fileName;
               analysisResults := analysisResults st;
               onEmotionChange := onEmotionChange st;
               emitted := emitted st;
               errorLog := errorLog st |}).

(** [this.analysisResults.set(fileName, result)]. *)
Definition cacheSet (fileName : jsstring) (result : CodeAnalysisResult) : M unit :=
  fun st =>
    (Ok tt, {| currentFile := currentFile st;
               analysisResults := <[fileName := result]> (analysisResults st);
               onEmotionChange := onEmotionChange st;
               emitted := emitted st;
               errorLog := errorLog st |}).

(** [this.analysisResults.get(fileName)]. *)
Definition cacheGet (fileName : jsstring) : M (option CodeAnalysisResult) :=
  gets (fun st => analysisResults st !! fileName).

(** [this.onEmotionChange(emotion, reason)]: the call is recorded, then the
    listener runs and may throw. *)
Definition invoke (callback : jsstring -> jsstring -> Exc unit)
    (emotion reason : jsstring) : M unit :=
  fun st =>
    (callback emotion reason,
     {| currentFile := currentFile st;
        analysisResults := analysisResults st;
        onEmotionChange := onEmotionChange st;
        emitted := emitted st ++ [(emotion, reason)];
        errorLog := errorLog st |}).

(** [console.error("Error analyzing Python file:", error)]. *)
Definition consoleError (error : Error) : M unit :=
  fun st =>
    (Ok tt, {| currentFile := currentFile st;
               analysisResults := analysisResults st;
               onEmotionChange := onEmotionChange st;
               emitted := emitted st;
               errorLog := errorLog st ++ [error] |}).

(** [setEmotionCallback]. *)
Definition setEmotionCallback (callback : jsstring -> jsstring -> Exc unit)
  : M unit :=
  fun st =>
    (Ok tt, {| currentFile := currentFile st;
               analysisResults := analysisResults st;
               onEmotionChange := Some callback;
               emitted := emitted st;
               errorLog := errorLog st |}).

(** The part of [vscode.TextDocument] the analyzer reads. *)
Record TextDocument := {
  fileName : jsstring;
  languageId : jsstring;
  getText : jsstring
}.

(** [path.posix.basename(p)] of Node.js, one-argument form: the text after
    the last slash, trailing slashes ignored. *)
Fixpoint uptoSlash (s : jsstring) : jsstring :=
  match s with
  | [] => []
  | c :: s' => if N.eqb c 47 then [] else c :: uptoSlash s'
  end.

Definition posixBasename (p : jsstring) : jsstring :=
  rev (uptoSlash (dropWhile (N.eqb 47) (rev p))).

Section Analyzer.

(** [path.basename] of the host platform. *)
Variable basename : jsstring -> jsstring.

(** Lines 327-344 of [updateBotEmotion]: the emotion and the reason. *)
Definition selectEmotion (result : CodeAnalysisResult) (fileName : jsstring)
  : jsstring * jsstring :=
  if hasErrors result then
    (lit "frustrated",
     lit "Found " ++ toString (errorCount result) ++
     lit " syntax error(s) in " ++ basename fileName)
  else if hasWarnings result then
    (lit "concerned", lit "Warnings detected in " ++ basename fileName)
  else if lineCount result =? 0 then
    (lit "happy", lit "Empty file - ready to start coding!")
  else
    (lit "happy",
     lit "Great code! " ++ toString (lineCount result) ++
     lit " lines written, no errors found").

(** The guard of lines 348-353, on the already computed [baseline]. *)
Definition significant (baseline : option CodeAnalysisResult)
    (result : CodeAnalysisResult) : bool :=
  match baseline with
  | None => true
  | Some b =>
      negb (Bool.eqb (hasErrors b) (hasErrors result)) ||
      negb (errorCount b =? errorCount result) ||
      negb (lineCount b =? lineCount result)
  end.

Definition updateBotEmotion (result : CodeAnalysisResult) (fileName : jsstring)
    (previousResult : option CodeAnalysisResult) : M unit :=
  let! listener := gets onEmotionChange in
  match listener with
  | None => ret tt
  | Some callback =>
      let '(emotion, reason) := selectEmotion result fileName in
      let! baseline := match previousResult with
                       | Some p => ret (Some p)
                       | None => cacheGet fileName
                       end in
      if significant baseline result
      then invoke callback emotion reason
      else ret tt
  end.

(** [analyzeFile], with the awaited analysis as a parameter so that a
    rejected promise can be represented. *)
Definition analyzeFileWith (analysis : jsstring -> Exc CodeAnalysisResult)
    (document : TextDocument) : M unit :=
  tryCatch
    (let content := getText document in
     let! result := liftExc (analysis content) in
     do! setCurrentFile (fileName document) in
     let! previous := cacheGet (fileName document) in
     do! cacheSet (fileName document) result in
     updateBotEmotion result (fileName document) previous)
    (fun error => consoleError error).

(** [analyzeFile] as the class has it: [analyzePythonCode] always resolves. *)
Definition analyzeFile (document : TextDocument) : M unit :=
  analyzeFileWith (fun content => Ok (analyzePythonCode content)) document.

End Analyzer.

(** ** Event handlers and accessors *)

(** [s.endsWith(p)]. *)
Definition endsWith (s p : jsstring) : bool := startsWith (rev s) (rev p).

Definition isPythonFile (document : TextDocument) : bool :=
  bool_decide (languageId document = lit "python") ||
  endsWith (fileName document) (lit ".py").


Definition getAllAnalysisResults : M (gmap jsstring CodeAnalysisResult) :=
  gets analysisResults.

(** What the host can do to the analyzer: the three subscriptions of
    [setupFileWatcher] and the public [setEmotionCallback].  [isActive] is
    the outcome of [event.document === vscode.window.activeTextEditor?.document]. *)
Inductive Action :=
| ActiveEditorChanged (editor : option TextDocument)
| TextChanged (document : TextDocument) (isActive : bool)
| Saved (document : TextDocument)
| CallbackSet (callback : jsstring -> jsstring -> Exc unit).

Section Handlers.

Variable basename : jsstring -> jsstring.

Definition onDidChangeActiveTextEditor (editor : option TextDocument) : M unit :=
  match editor with
  | Some document =>
      if isPythonFile document
      then do! setCurrentFile (fileName document) in
           analyzeFile basename document
      else ret tt
  | None => ret tt
  end.

Definition onDidChangeTextDocument (document : TextDocument) (isActive : bool)
  : M unit :=
  if isPythonFile document && isActive
  then analyzeFile basename document
  else ret tt.

Definition onDidSaveTextDocument (document : TextDocument) : M unit :=
  if isPythonFile document then analyzeFile basename document else ret tt.

Definition perform (a : Action) : M unit :=
  match a with
  | ActiveEditorChanged editor => onDidChangeActiveTextEditor editor
  | TextChanged document isActive => onDidChangeTextDocument document isActive
  | Saved document => onDidSaveTextDocument document
  | CallbackSet callback => setEmotionCallback callback
  end.

(** The host runs the actions one after the other; each analysis has
    finished before the next action starts. *)
Fixpoint performAll (actions : list Action) (st : State) : State :=
  match actions with
  | [] => st
  | a :: rest => performAll rest (snd (perform a st))
  end.

End Handlers.

(** ** The presentation shell (src/src/botInterface.ts, class [BotInterface])

    What is modelled: the fields of the object, the panel it owns, and the
    interval timer of the water reminder.  The HTML text that
    [getWebviewContent] builds is a function of six fields of the object;
    the model keeps the values of those fields at the time of rendering in
    place of the text ([Rendering]).  Counters and durations are kept as the
    numbers they were set to; no arithmetic on them is modelled.  The body
    of the reminder callback ([showWaterNotification]) changes no field and
    is left out. *)

Module Bot.

Record CodeStats := {
  lineCount : nat;
  errorCount : nat;
  complexity : nat;
  quality : jsstring
}.

(** The arguments of one evaluation of [getWebviewContent]. *)
Record Rendering := {
  shownEmotion : jsstring;
  shownReason : jsstring;
  shownDuration : nat;
  shownBreakthroughs : nat;
  shownFocus : nat;
  shownStats : CodeStats
}.

(** Messages posted to the webview by [startTimer] and [stopTimer]. *)
Inductive Message := StartTimerMessage | StopTimerMessage.

(** A [vscode.WebviewPanel]: its [webview.html] ([None] before the first
    assignment), the number of [reveal] calls, the messages posted to it. *)
Record Panel := {
  html : option Rendering;
  reveals : nat;
  posted : list Message
}.

(** The object's fields, then the host's side of [setInterval] and
    [clearInterval]: the handles of the intervals that are running and the
    next handle to hand out. *)
Record State := {
  panel : option Panel;
  currentEmotion : jsstring;
  sessionDuration : nat;
  breakthroughCount : nat;
  focusTime : nat;
  currentReason : jsstring;
  waterReminderTimer : option nat;
  codeStats : CodeStats;
  running : gset nat;
  nextHandle : nat
}.

Definition initial : State :=
  {| panel := None;
     currentEmotion := lit "focused";
     sessionDuration := 0;
     breakthroughCount := 0;
     focusTime := 0;
     currentReason := lit "Ready to code!";
     waterReminderTimer := None;
     codeStats := {| lineCount := 0; errorCount := 0; complexity := 0;
                     quality := lit "good" |};
     running := ∅;
     nextHandle := 0 |}.

Definition withPanel (p : option Panel) (b : State) : State :=
  {| panel := p;
     currentEmotion := currentEmotion b;
     sessionDuration := sessionDuration b;
     breakthroughCount := breakthroughCount b;
     focusTime := focusTime b;
     currentReason := currentReason b;
     waterReminderTimer := waterReminderTimer b;
     codeStats := codeStats b;
     running := running b;
     nextHandle := nextHandle b |}.

Definition getWebviewContent (b : State) : Rendering :=
  {| shownEmotion := currentEmotion b;
     shownReason := currentReason b;
     shownDuration := sessionDuration b;
     shownBreakthroughs := breakthroughCount b;
     shownFocus := focusTime b;
     shownStats := codeStats b |}.

Definition updateBotInterface (b : State) : State :=
  match panel b with
  | None => b
  | Some p =>
      withPanel (Some {| html := Some (getWebviewContent b);
                         reveals := reveals p;
                         posted := posted p |}) b
  end.

Definition showBot (b : State) : State :=
  match panel b with
  | Some p =>
      withPanel (Some {| html := html p;
                         reveals := reveals p + 1;
                         posted := posted p |}) b
  | None =>
      updateBotInterface
        (withPanel (Some {| html := None; reveals := 0; posted := [] |}) b)
  end.

(** [updateEmotion(emotion, reason?)]: [if (reason)] fails for a missing
    reason and for the empty string. *)
Definition updateEmotion (emotion : jsstring) (reason : option jsstring)
    (b : State) : State :=
  let b1 :=
    {| panel := panel b;
       currentEmotion := emotion;
       sessionDuration := sessionDuration b;
       breakthroughCount := breakthroughCount b;
       focusTime := focusTime b;
       currentReason := match reason with
                        | Some (c :: r) => c :: r
                        | _ => currentReason b
                        end;
       waterReminderTimer := waterReminderTimer b;
       codeStats := codeStats b;
       running := running b;
       nextHandle := nextHandle b |} in
  match panel b1 with
  | Some _ => updateBotInterface b1
  | None => b1
  end.

Definition updateCodeStats (stats : CodeStats) (b : State) : State :=
  updateBotInterface
    {| panel := panel b;
       currentEmotion := currentEmotion b;
       sessionDuration := sessionDuration b;
       breakthroughCount := breakthroughCount b;
       focusTime := focusTime b;
       currentReason := currentReason b;
       waterReminderTimer := waterReminderTimer b;
       codeStats := stats;
       running := running b;
       nextHandle := nextHandle b |}.

Definition updateSessionStats (duration breakthroughs focus : nat) (b : State)
  : State :=
  updateBotInterface
    {| panel := panel b;
       currentEmotion := currentEmotion b;
       sessionDuration := duration;
       breakthroughCount := breakthroughs;
       focusTime := focus;
       currentReason := currentReason b;
       waterReminderTimer := waterReminderTimer b;
       codeStats := codeStats b;
       running := running b;
       nextHandle := nextHandle b |}.

Definition postMessage (m : Message) (b : State) : State :=
  match panel b with
  | Some p =>
      withPanel (Some {| html := html p;
                         reveals := reveals p;
                         posted := posted p ++ [m] |}) b
  | None => b
  end.

Definition startTimer (b : State) : State := postMessage StartTimerMessage b.
Definition stopTimer (b : State) : State := postMessage StopTimerMessage b.

Definition stopWaterReminder (b : State) : State :=
  match waterReminderTimer b with
  | Some h =>
      {| panel := panel b;
         currentEmotion := currentEmotion b;
         sessionDuration := sessionDuration b;
         breakthroughCount := breakthroughCount b;
         focusTime := focusTime b;
         currentReason := currentReason b;
         waterReminderTimer := None;
         codeStats := codeStats b;
         running := running b ∖ {[h]};
         nextHandle := nextHandle b |}
  | None => b
  end.

Definition startWaterReminder (b : State) : State :=
  let b1 := stopWaterReminder b in
  {| panel := panel b1;
     currentEmotion := currentEmotion b1;
     sessionDuration := sessionDuration b1;
     breakthroughCount := breakthroughCount b1;
     focusTime := focusTime b1;
     currentReason := currentReason b1;
     waterReminderTimer := Some (nextHandle b1);
     codeStats := codeStats b1;
     running := {[nextHandle b1]} ∪ running b1;
     nextHandle := S (nextHandle b1) |}.

(** The [onDidDispose] callback registered by [showBot]. *)
Definition panelDisposed (b : State) : State := withPanel None b.

(** [dispose]: disposing the panel fires [onDidDispose]. *)
Definition dispose (b : State) : State :=
  let b1 := stopWaterReminder b in
  match panel b1 with
  | Some _ => panelDisposed b1
  | None => b1
  end.

(** The calls the extension and the host can make on the object. *)
Inductive Op :=
| ShowBot
| UpdateBotInterface
| UpdateEmotion (emotion : jsstring) (reason : option jsstring)
| UpdateCodeStats (stats : CodeStats)
| UpdateSessionStats (duration breakthroughs focus : nat)
| StartTimer
| StopTimer
| StartWaterReminder
| StopWaterReminder
| PanelDisposed
| Dispose.

Definition step (op : Op) (b : State) : State :=
  match op with
  | ShowBot => showBot b
  | UpdateBotInterface => updateBotInterface b
  | UpdateEmotion emotion reason => updateEmotion emotion reason b
  | UpdateCodeStats stats => updateCodeStats stats b
  | UpdateSessionStats d n f => updateSessionStats d n f b
  | StartTimer => startTimer b
  | StopTimer => stopTimer b
  | StartWaterReminder => startWaterReminder b
  | StopWaterReminder => stopWaterReminder b
  | PanelDisposed => panelDisposed b
  | Dispose => dispose b
  end.

Definition run (ops : list Op) (b : State) : State :=
  fold_left (fun b op => step op b) ops b.

(** The intervals that are running are exactly the one the object holds. *)
Definition TimerHeld (b : State) : Prop :=
  running b = match waterReminderTimer b with
              | Some h => {[h]}
              | None => ∅
              end.

(** An open panel shows the current fields. *)
Definition PanelCurrent (b : State) : Prop :=
  forall p, panel b = Some p -> html p = Some (getWebviewContent b).

Definition isShowBot (op : Op) : bool :=
  match op with
  | ShowBot => true
  | _ => false
  end.

End Bot.

(** ** Specification-side definitions *)

(** The code unit of a line feed. *)
Definition nl : jsstring := [10%N].

(** The error messages one physical line triggers, each predicate on its
    own (section 4.1 of the specification). *)
Definition lineErrors (lines : list jsstring) (i : nat) : list jsstring :=
  let line := nth i lines [] in
  let n := i + 1 in
  let nonblank := 0 <? List.length (trim line) in
  let noColon := negb (includes line (lit ":")) in
  (if includes line (lit "print(") && negb (includes line (lit ")"))
   then [lineMsg n ": Missing closing parenthesis in print statement"] else []) ++
  (if includes line (lit "if ") && noColon && nonblank
   then [lineMsg n ": Missing colon after if statement"] else []) ++
  (if includes line (lit "def ") && noColon && nonblank
   then [lineMsg n ": Missing colon after function definition"] else []) ++
  (if includes line (lit "for ") && noColon && nonblank
   then [lineMsg n ": Missing colon after for loop"] else []) ++
  (if includes line (lit "while ") && noColon && nonblank
   then [lineMsg n ": Missing colon after while loop"] else []) ++
  (if includes line (lit "try:") && negb (hasMatchingExcept lines i)
   then [lineMsg n ": try block without matching except"] else []) ++
  (if Nat.odd (countChar 39%N line) || Nat.odd (countChar 34%N line)
   then [lineMsg n ": Unmatched quotes"] else []) ++
  (if includes line (lit "=") && includes line (lit "+") &&
      includes line (lit "undefined")
   then [lineMsg n ": Possible undefined variable usage"] else []).

(** The warning messages one physical line triggers. *)
Definition lineWarnings (lines : list jsstring) (i : nat) : list jsstring :=
  let line := nth i lines [] in
  let n := i + 1 in
  (if 120 <? List.length line
   then [lineMsg n ": Line exceeds 120 characters"] else []) ++
  (if endsWithSpace line && (0 <? List.length (trim line))
   then [lineMsg n ": Trailing whitespace"] else []) ++
  match matchNote None line with
  | Some tok => [lineMsg n ": Contains " ++ tok ++ lit " note"]
  | None => []
  end ++
  (if startsWithTab line
   then [lineMsg n ": Uses tab indentation (prefer spaces)"] else []) ++
  (if mixedIndent line
   then [lineMsg n ": Mixed indentation (tabs and spaces)"] else []).

(** [m] is the first message in line order of the per-line messages [per]
    over lines [0 .. n-1]. *)
Definition FirstInLineOrder (per : nat -> list jsstring) (n : nat) (m : jsstring)
  : Prop :=
  exists i, i < n /\ (forall j, j < i -> per j = []) /\ hd_error (per i) = Some m.

(** A line counts when its trimmed form is non-empty. *)
Definition nonBlank (line : jsstring) : bool :=
  negb (bool_decide (trim line = [])).

Definition b2n (b : bool) : nat := if b then 1 else 0.

(** The complexity contribution of one line, item by item. *)
Definition lineContribution (line : jsstring) : nat :=
  let t := trim line in
  1 * b2n (startsWith t (lit "if ") || startsWith t (lit "elif ")) +
  2 * b2n (startsWith t (lit "for ") || startsWith t (lit "while ")) +
  1 * b2n (startsWith t (lit "try:") || startsWith t (lit "except ")) +
  1 * b2n (startsWith t (lit "def ") || startsWith t (lit "class ")) +
  1 * b2n (includes t (lit " and ") || includes t (lit " or ")) +
  2 * b2n (includes t (lit "lambda ")) +
  1 * b2n (bool_decide (8 < List.length line - List.length (trimStart line))).

(** The quality classification as a function of the three counters, in the
    precedence order of section 4.2, step 6. *)
Definition qualityOf (errorCount complexity lineCount : nat) : Quality :=
  if bool_decide (errorCount = 0 /\ complexity < 10 /\ 0 < lineCount) then good
  else if bool_decide (errorCount = 0 /\ 0 < lineCount) then improving
  else needs_work.

(** The message of the try check for line number [n]. *)
Definition tryMessage (n : nat) : jsstring :=
  lineMsg n ": try block without matching except".

(** In the lines [rest] that follow a try line, every line whose trimmed
    form starts with "except" comes after a line whose trimmed form starts
    with "def " or "class ": the forward scan meets no except before its
    boundary or the end of the buffer. *)
Definition NoExceptBeforeBoundary (rest : list jsstring) : Prop :=
  forall j l,
    nth_error rest j = Some l ->
    startsWith (trim l) (lit "except") = true ->
    exists k l',
      k < j /\ nth_error rest k = Some l' /\
      (startsWith (trim l') (lit "def ") = true \/
       startsWith (trim l') (lit "class ") = true).

(** The try rule with the try line recognised by [recognise]. *)
Definition TryRule (recognise : jsstring -> bool) (content : jsstring) (n : nat)
  : Prop :=
  exists line,
    1 <= n /\ nth_error (split_nl content) (n - 1) = Some line /\
    recognise line = true /\
    NoExceptBeforeBoundary (skipn n (split_nl content)).

(** The line, trimmed, equals or starts a [try:] block. *)
Definition startsTryBlock (line : jsstring) : bool :=
  startsWith (trim line) (lit "try:").

(** The line has [try:] somewhere in it. *)
Definition mentionsTry (line : jsstring) : bool :=
  includes line (lit "try:").

(** The emotion rule of section 4.3, one case per line of the rule. *)
Inductive EmotionRule (basename : jsstring -> jsstring)
    (r : CodeAnalysisResult) (d : jsstring) : jsstring -> jsstring -> Prop :=
| rule_errors :
    hasErrors r = true ->
    EmotionRule basename r d (lit "frustrated")
      (lit "Found " ++ toString (errorCount r) ++
       lit " syntax error(s) in " ++ basename d)
| rule_warnings :
    hasErrors r = false -> hasWarnings r = true ->
    EmotionRule basename r d (lit "concerned")
      (lit "Warnings detected in " ++ basename d)
| rule_empty :
    hasErrors r = false -> hasWarnings r = false -> lineCount r = 0 ->
    EmotionRule basename r d (lit "happy")
      (lit "Empty file - ready to start coding!")
| rule_clean :
    hasErrors r = false -> hasWarnings r = false -> lineCount r <> 0 ->
    EmotionRule basename r d (lit "happy")
      (lit "Great code! " ++ toString (lineCount r) ++
       lit " lines written, no errors found").

(** The new result differs from the previous one in [hasErrors],
    [errorCount] or [lineCount]. *)
Definition Differs (previous result : CodeAnalysisResult) : Prop :=
  hasErrors previous <> hasErrors result \/
  errorCount previous <> errorCount result \/
  lineCount previous <> lineCount result.

(** What one call of [updateBotEmotion] hands to the listener, given the
    baseline it compares with. *)
Definition announcement (basename : jsstring -> jsstring)
    (result : CodeAnalysisResult) (d : jsstring)
    (baseline : option CodeAnalysisResult) : list (jsstring * jsstring) :=
  if significant baseline result then [selectEmotion basename result d] else [].

(** The state after the cache update of [analyzeFile]. *)
Definition cached (d : jsstring) (result : CodeAnalysisResult) (st : State)
  : State :=
  {| currentFile := Some d;
     analysisResults := <[d := result]> (analysisResults st);
     onEmotionChange := onEmotionChange st;
     emitted := emitted st;
     errorLog := errorLog st |}.

(** Sample objects: a listener that returns normally, an analyzer as
    constructed with no active editor, the same analyzer once the listener
    is registered, and two versions of one document. *)
Definition quietListener : jsstring -> jsstring -> Exc unit :=
  fun _ _ => Ok tt.

Definition newAnalyzer : State :=
  {| currentFile := None;
     analysisResults := ∅;
     onEmotionChange := None;
     emitted := [];
     errorLog := [] |}.

Definition freshAnalyzer : State :=
  snd (setEmotionCallback quietListener newAnalyzer).

Definition sampleDocument : TextDocument :=
  {| fileName := lit "/home/dev/app.py";
     languageId := lit "python";
     getText := lit "x = 1" |}.

Definition editedDocument : TextDocument :=
  {| fileName := lit "/home/dev/app.py";
     languageId := lit "python";
     getText := lit "x = 1" ++ nl ++ lit "y = 2" |}.

(** An analysis that always rejects. *)
Definition failingAnalysis : jsstring -> Exc CodeAnalysisResult :=
  fun _ => Throw (JsError (lit "internal fault")).

(** The document an action causes to be analysed, if any. *)
Definition analysed (a : Action) : option TextDocument :=
  match a with
  | ActiveEditorChanged (Some document) =>
      if isPythonFile document then Some document else None
  | ActiveEditorChanged None => None
  | TextChanged document isActive =>
      if isPythonFile document && isActive then Some document else None
  | Saved document => if isPythonFile document then Some document else None
  | CallbackSet _ => None
  end.

(** The cache with the analysis of [document] written over it. *)
Definition overwrite (m : gmap jsstring CodeAnalysisResult)
    (document : TextDocument) : gmap jsstring CodeAnalysisResult :=
  <[fileName document := analyzePythonCode (getText document)]> m.

(** A document that no subscription reacts to. *)
Definition headerDocument : TextDocument :=
  {| fileName := lit "/home/dev/app.h";
     languageId := lit "c";
     getText := lit "int x;" |}.

(** The message [m] is [`Line ${k}: ...`]. *)
Definition HasLineNumber (m : jsstring) (k : nat) : Prop :=
  exists rest, m = lit "Line " ++ toString k ++ lit ": " ++ rest.

(** The messages carry line numbers between 1 and [n] that never decrease
    along the list. *)
Definition LineOrdered (msgs : list jsstring) (n : nat) : Prop :=
  exists numbers,
    List.Forall2 HasLineNumber msgs numbers /\
    StronglySorted le numbers /\
    List.Forall (fun k => 1 <= k <= n) numbers.


(** Line number [n] of the buffer exists and satisfies [cond]. *)
Definition LineSatisfies (content : jsstring) (n : nat) (cond : jsstring -> bool)
  : Prop :=
  exists line,
    1 <= n /\ nth_error (split_nl content) (n - 1) = Some line /\
    cond line = true.

(** The line has [keyword] somewhere, no colon anywhere, and is not blank. *)
Definition lacksColon (keyword : string) (line : jsstring) : bool :=
  includes line (lit keyword) && negb (includes line (lit ":")) && nonBlank line.

(** The line has [print(] somewhere and no closing parenthesis anywhere. *)
Definition openPrint (line : jsstring) : bool :=
  includes line (lit "print(") && negb (includes line (lit ")")).

(** The number of single quotes or the number of double quotes is odd. *)
Definition oddQuotes (line : jsstring) : bool :=
  Nat.odd (countChar 39%N line) || Nat.odd (countChar 34%N line).

(** The line has an equals sign, a plus sign and the word undefined. *)
Definition mentionsUndefined (line : jsstring) : bool :=
  includes line (lit "=") && includes line (lit "+") &&
  includes line (lit "undefined").

(** Line number [n] of the buffer exists and has the property [P]. *)
Definition LineIs (content : jsstring) (n : nat) (P : jsstring -> Prop) : Prop :=
  exists line,
    1 <= n /\ nth_error (split_nl content) (n - 1) = Some line /\ P line.

(** The leftmost whole-word note of the line is [tok]. *)
Definition noteIs (tok : string) (line : jsstring) : bool :=
  bool_decide (matchNote None line = Some (lit tok)).

(** No word character right after, respectively right before. *)
Definition boundaryAfter (post : jsstring) : Prop :=
  match post with
  | [] => True
  | c :: _ => isWordChar c = false
  end.

Definition boundaryBefore (prev : option N) (pre : jsstring) : Prop :=
  match rev pre, prev with
  | c :: _, _ => isWordChar c = false
  | [], Some p => isWordChar p = false
  | [], None => True
  end.

(** [tok] occurs in [line] as a whole word. *)
Definition WholeWord (tok line : jsstring) : Prop :=
  exists pre post,
    line = pre ++ tok ++ post /\ boundaryBefore None pre /\ boundaryAfter post.

(** The line starts with tabs then a space, or with spaces then a tab. *)
Definition MixedStart (line : jsstring) : Prop :=
  exists k rest,
    1 <= k /\
    (line = repeat 9%N k ++ 32%N :: rest \/ line = repeat 32%N k ++ 9%N :: rest).

(** ** The loops, one line at a time *)

Lemma odd_mod2 (n : nat) : negb (n mod 2 =? 0) = Nat.odd n.
Proof.
  pose proof (Nat.div2_odd n) as Hn.
  pose proof (Nat.div_mod_eq n 2) as Hd.
  pose proof (Nat.mod_upper_bound n 2 ltac:(lia)) as Hb.
  destruct (Nat.odd n); simpl in Hn.
  - assert (n mod 2 = 1) as -> by lia. reflexivity.
  - assert (n mod 2 = 0) as -> by lia. reflexivity.
Qed.

(** Every conditional [push] of a loop body appends to what came before. *)
Ltac split_pushes :=
  repeat match goal with
         | |- context [if ?b then _ else _] => destruct b
         | |- context [match ?o with Some _ => _ | None => _ end] => destruct o
         end;
  rewrite <- ?app_assoc; simpl; rewrite ?app_nil_r; reflexivity.

Lemma syntaxStep_app lines errors i :
  syntaxStep lines errors i = errors ++ lineErrors lines i.
Proof.
  unfold syntaxStep, lineErrors. cbv zeta.
  rewrite !odd_mod2.
  generalize (nth i lines []) (i + 1). intros line n.
  generalize (hasMatchingExcept lines i). intros hme.
  split_pushes.
Qed.

Lemma warningStep_app lines warnings i :
  warningStep lines warnings i = warnings ++ lineWarnings lines i.
Proof.
  unfold warningStep, lineWarnings. cbv zeta.
  generalize (nth i lines []) (i + 1). intros line n.
  split_pushes.
Qed.

Lemma fold_pushes (step : list jsstring -> nat -> list jsstring)
    (per : nat -> list jsstring) :
  (forall acc i, step acc i = acc ++ per i) ->
  forall idx acc, fold_left step idx acc = acc ++ concat (map per idx).
Proof.
  intros Hstep idx. induction idx as [|i idx IH]; intros acc; simpl.
  - now rewrite app_nil_r.
  - rewrite IH, Hstep, <- app_assoc. reflexivity.
Qed.

Lemma checkPythonSyntax_lines content :
  checkPythonSyntax content =
  concat (map (lineErrors (split_nl content))
              (seq 0 (List.length (split_nl content)))).
Proof.
  unfold checkPythonSyntax. cbv zeta.
  now rewrite (fold_pushes _ _ (syntaxStep_app (split_nl content))).
Qed.

Lemma checkPythonWarnings_lines content :
  checkPythonWarnings content =
  concat (map (lineWarnings (split_nl content))
              (seq 0 (List.length (split_nl content)))).
Proof.
  unfold checkPythonWarnings. cbv zeta.
  now rewrite (fold_pushes _ _ (warningStep_app (split_nl content))).
Qed.

Lemma complexityStep_add complexity line :
  complexityStep complexity line = complexity + lineContribution line.
Proof.
  unfold complexityStep, lineContribution, b2n. cbv zeta.
  generalize (trim line). intros t.
  destruct (Nat.ltb_spec 8 (List.length line - List.length (trimStart line)));
    [rewrite bool_decide_eq_true_2 by lia | rewrite bool_decide_eq_false_2 by lia];
    repeat match goal with
           | |- context [if ?b then _ else _] => destruct b
           end; lia.
Qed.

Lemma calculateComplexity_sum lines :
  calculateComplexity lines = list_sum (map lineContribution lines).
Proof.
  unfold calculateComplexity.
  assert (forall acc, fold_left complexityStep lines acc =
                      acc + list_sum (map lineContribution lines)) as H.
  { induction lines as [|l lines IH]; intros acc; simpl.
    - lia.
    - rewrite IH, complexityStep_add. lia. }
  apply (H 0).
Qed.

(** ** Line counting *)

Lemma nonBlank_length line : (0 <? List.length (trim line)) = nonBlank line.
Proof.
  unfold nonBlank. destruct (trim line) as [|c t]; reflexivity.
Qed.

Lemma analysis_lines content :
  List.filter (fun line => 0 <? List.length (trim line)) (split_nl content) =
  List.filter nonBlank (split_nl content).
Proof.
  apply List.filter_ext. intros line. apply nonBlank_length.
Qed.

Lemma split_nl_newlines n : split_nl (repeat 10%N n) = repeat [] (S n).
Proof.
  induction n as [|n IH]; simpl.
  - reflexivity.
  - now rewrite IH.
Qed.

Lemma filter_nonBlank_blank n : List.filter nonBlank (repeat [] n) = [].
Proof.
  induction n as [|n IH]; simpl; [reflexivity | exact IH].
Qed.

(** ** Messages in line order *)

Lemma hd_error_concat_seq (per : nat -> list jsstring) (n a : nat) (m : jsstring) :
  hd_error (concat (map per (seq a n))) = Some m <->
  exists i, a <= i < a + n /\ (forall j, a <= j < i -> per j = []) /\
            hd_error (per i) = Some m.
Proof.
  revert a. induction n as [|n IH]; intros a; simpl.
  - split; [discriminate | intros (i & Hi & _); lia].
  - destruct (per a) as [|x xs] eqn:Ha; simpl.
    + rewrite IH. split.
      * intros (i & Hi & Hbefore & Hhd). exists i.
        split; [lia|]. split; [|exact Hhd].
        intros j Hj. destruct (Nat.eq_dec j a) as [->|Hne]; [exact Ha|].
        apply Hbefore. lia.
      * intros (i & Hi & Hbefore & Hhd).
        destruct (Nat.eq_dec i a) as [->|Hne].
        { rewrite Ha in Hhd. discriminate. }
        exists i. split; [lia|]. split; [|exact Hhd].
        intros j Hj. apply Hbefore. lia.
    + split.
      * intros Hm. exists a. rewrite Ha.
        split; [lia|]. split; [|exact Hm].
        intros j Hj. lia.
      * intros (i & Hi & Hbefore & Hhd).
        destruct (Nat.eq_dec i a) as [->|Hne].
        { now rewrite Ha in Hhd. }
        rewrite (Hbefore a) in Ha by lia. discriminate.
Qed.

Lemma hd_error_first (per : nat -> list jsstring) (n : nat) (m : jsstring) :
  hd_error (concat (map per (seq 0 n))) = Some m <-> FirstInLineOrder per n m.
Proof.
  rewrite hd_error_concat_seq. unfold FirstInLineOrder.
  split; intros (i & Hi & Hbefore & Hhd); exists i;
    (split; [lia|]); (split; [|exact Hhd]);
    intros j Hj; apply Hbefore; lia.
Qed.

Lemma guarded_head (l : list jsstring) :
  (if 0 <? List.length l then nth_error l 0 else None) = hd_error l.
Proof. destruct l; reflexivity. Qed.

(** ** Claims about the analysis result *)

(** C2. The quality of an analysis result is a function of its error
    count, complexity and line count alone, by precedence: good exactly when
    there is no error, the complexity is below 10 and some line is
    non-blank; improving exactly when there is no error, some line is
    non-blank and the complexity is at least 10; needs_work exactly when an
    error is present or no line is non-blank.  The sample triples and the
    empty buffer classify as listed. *)
Theorem quality_by_precedence :
  (forall content,
     let r := analyzePythonCode content in
     quality r = qualityOf (errorCount r) (complexity r) (lineCount r) /\
     (quality r = good <->
        errorCount r = 0 /\ complexity r < 10 /\ 0 < lineCount r) /\
     (quality r = improving <->
        errorCount r = 0 /\ 10 <= complexity r /\ 0 < lineCount r) /\
     (quality r = needs_work <-> errorCount r <> 0 \/ lineCount r = 0)) /\
  (forall lines complexity errorCount,
     assessCodeQuality lines complexity errorCount =
     qualityOf errorCount complexity (List.length lines)) /\
  qualityOf 0 3 5 = good /\
  qualityOf 0 12 5 = improving /\
  qualityOf 1 0 5 = needs_work /\
  quality (analyzePythonCode []) = needs_work.
Proof.
  assert (forall lines c e,
            assessCodeQuality lines c e = qualityOf e c (List.length lines)) as Hq.
  { intros lines c e. unfold assessCodeQuality, qualityOf.
    destruct (Nat.eqb_spec e 0), (Nat.ltb_spec c 10),
      (Nat.ltb_spec 0 (List.length lines)); simpl;
      repeat case_bool_decide; try reflexivity; lia. }
  split; [|split; [exact Hq | repeat split; reflexivity]].
  intros content r.
  assert (quality r = qualityOf (errorCount r) (complexity r) (lineCount r)) as Hr.
  { subst r. unfold analyzePythonCode. cbv zeta. simpl. apply Hq. }
  split; [exact Hr|]. rewrite Hr. unfold qualityOf.
  repeat case_bool_decide; repeat split; intros; try discriminate; try lia.
Qed.

(** C3. In every analysis result, hasErrors is (errorCount > 0), hasWarnings
    is (warningCount > 0), lastError is present exactly when hasErrors and
    is then the first error message in line order, lastWarning is present
    exactly when hasWarnings and is then the first warning message in line
    order, and lastSuccess is present exactly when hasErrors is false and
    lineCount > 0. *)
Theorem result_invariants content :
  let r := analyzePythonCode content in
  let lines := split_nl content in
  hasErrors r = bool_decide (0 < errorCount r) /\
  hasWarnings r = bool_decide (0 < warningCount r) /\
  (is_Some (lastError r) <-> hasErrors r = true) /\
  (forall m, lastError r = Some m <->
             FirstInLineOrder (lineErrors lines) (List.length lines) m) /\
  (is_Some (lastWarning r) <-> hasWarnings r = true) /\
  (forall m, lastWarning r = Some m <->
             FirstInLineOrder (lineWarnings lines) (List.length lines) m) /\
  (is_Some (lastSuccess r) <-> hasErrors r = false /\ 0 < lineCount r).
Proof.
  intros r lines. subst r. unfold analyzePythonCode. cbv zeta. simpl.
  rewrite !guarded_head.
  split; [|split]; [| |split; [|split; [|split; [|split]]]].
  - destruct (Nat.ltb_spec 0 (List.length (checkPythonSyntax content)));
      [rewrite bool_decide_eq_true_2 | rewrite bool_decide_eq_false_2];
      auto; lia.
  - destruct (Nat.ltb_spec 0 (List.length (checkPythonWarnings content)));
      [rewrite bool_decide_eq_true_2 | rewrite bool_decide_eq_false_2];
      auto; lia.
  - destruct (checkPythonSyntax content); simpl; split;
      intros H; try discriminate; eauto. destruct H; discriminate.
  - intros m. rewrite checkPythonSyntax_lines. apply hd_error_first.
  - destruct (checkPythonWarnings content); simpl; split;
      intros H; try discriminate; eauto. destruct H; discriminate.
  - intros m. rewrite checkPythonWarnings_lines. apply hd_error_first.
  - destruct (0 <? List.length (checkPythonSyntax content)); simpl.
    + split; [intros [x Hx]; discriminate | intros [Hf _]; discriminate].
    + destruct (Nat.ltb_spec 0
                  (List.length
                     (List.filter (fun line => 0 <? List.length (trim line))
                        (split_nl content)))); split;
        intros H0; eauto; try (destruct H0 as [x Hx]; discriminate);
        try (split; [reflexivity | assumption]).
      destruct H0; lia.
Qed.

(** C4. The complexity of a buffer is the sum, over the lines whose trimmed
    form is non-empty, of the per-line contributions, which are independent
    and accumulate on one line. *)
Theorem complexity_sums_contributions :
  (forall content,
     complexity (analyzePythonCode content) =
     list_sum (map lineContribution (List.filter nonBlank (split_nl content)))) /\
  complexity (analyzePythonCode
                (lit "         if a and b: f = lambda x: x")) = 1 + 1 + 2 + 1.
Proof.
  split; [|reflexivity].
  intros content. unfold analyzePythonCode. cbv zeta. simpl.
  rewrite calculateComplexity_sum, analysis_lines. reflexivity.
Qed.

(** C6. lineCount is the number of lines, under newline split, whose
    trimmed form is non-empty; a buffer of newlines only has lineCount 0;
    the empty string has lineCount, errorCount, warningCount and complexity
    0, quality needs_work and no lastSuccess. *)
Theorem lineCount_counts_nonblank_lines :
  (forall content,
     lineCount (analyzePythonCode content) =
     List.length (List.filter nonBlank (split_nl content))) /\
  (forall n, lineCount (analyzePythonCode (repeat 10%N n)) = 0) /\
  (let r := analyzePythonCode [] in
   lineCount r = 0 /\ errorCount r = 0 /\ warningCount r = 0 /\
   complexity r = 0 /\ quality r = needs_work /\ lastSuccess r = None).
Proof.
  assert (forall content,
            lineCount (analyzePythonCode content) =
            List.length (List.filter nonBlank (split_nl content))) as Hcount.
  { intros content. unfold analyzePythonCode. cbv zeta. simpl.
    now rewrite analysis_lines. }
  split; [exact Hcount|]. split.
  - intros n. rewrite Hcount, split_nl_newlines, filter_nonBlank_blank.
    reflexivity.
  - repeat split; reflexivity.
Qed.

(** ** Line messages are told apart by line number and text *)

Lemma digits_inj d d' : digits d = digits d' -> d = d'.
Proof.
  revert d'. induction d; destruct d'; simpl; intros H;
    try discriminate; try reflexivity;
    injection H as H; f_equal; auto.
Qed.

Lemma toString_inj a b : toString a = toString b -> a = b.
Proof.
  unfold toString. intros H. apply DecimalNat.Unsigned.to_uint_inj.
  now apply digits_inj.
Qed.

Lemma digits_no_colon d : Forall (fun c => c <> 58%N) (digits d).
Proof.
  induction d; simpl; constructor; auto; discriminate.
Qed.

Lemma split_at_colon (u v r1 r2 : jsstring) :
  Forall (fun c => c <> 58%N) u -> Forall (fun c => c <> 58%N) v ->
  u ++ 58%N :: r1 = v ++ 58%N :: r2 -> u = v /\ r1 = r2.
Proof.
  intros Hu. revert v. induction Hu as [|c u Hc Hu IH]; intros v Hv H.
  - destruct v as [|d v]; simpl in H.
    + injection H as H. auto.
    + injection H as H1 H2. inversion Hv; subst. congruence.
  - destruct v as [|d v]; simpl in H.
    + injection H as H1 H2. congruence.
    + injection H as H1 H2. inversion Hv; subst.
      destruct (IH v) as [-> ->]; auto.
Qed.

Lemma lineMsg_inj a b s t :
  lineMsg a (String ":" s) = lineMsg b (String ":" t) -> a = b /\ lit s = lit t.
Proof.
  unfold lineMsg. intros H. apply app_inv_head in H. simpl in H.
  apply split_at_colon in H; try apply digits_no_colon.
  destruct H as [H1 H2]. split; [now apply toString_inj | exact H2].
Qed.

(** ** The forward scan for an except *)

Lemma scanExcept_false rest :
  scanExcept rest = false <-> NoExceptBeforeBoundary rest.
Proof.
  unfold NoExceptBeforeBoundary.
  induction rest as [|l rest IH]; cbn [scanExcept].
  - split; [|reflexivity]. intros _ j l Hj. destruct j; discriminate.
  - destruct (startsWith (trim l) (lit "except")) eqn:He.
    + split; [discriminate|]. intros H.
      destruct (H 0 l eq_refl He) as (k & _ & Hk & _). lia.
    + destruct (startsWith (trim l) (lit "def ") ||
                startsWith (trim l) (lit "class ")) eqn:Hb.
      * split; [|reflexivity]. intros _ j l0 Hj Hl0.
        destruct j as [|j]; simpl in Hj.
        { injection Hj as <-. congruence. }
        exists 0, l. split; [lia|]. split; [reflexivity|].
        now apply orb_true_iff.
      * rewrite IH. split.
        { intros H j l0 Hj Hl0. destruct j as [|j]; simpl in Hj.
          - injection Hj as <-. congruence.
          - destruct (H j l0 Hj Hl0) as (k & l' & Hk & Hl' & Hbd).
            exists (S k), l'. split; [lia|]. split; [exact Hl'|exact Hbd]. }
        { intros H j l0 Hj Hl0.
          destruct (H (S j) l0 Hj Hl0) as (k & l' & Hk & Hl' & Hbd).
          destruct k as [|k]; simpl in Hl'.
          - injection Hl' as <-. apply orb_false_iff in Hb.
            destruct Hb as [Hd Hc]. destruct Hbd; congruence.
          - exists k, l'. split; [lia|]. split; [exact Hl'|exact Hbd]. }
Qed.

(** ** The try check *)

Lemma in_guard (b : bool) (x m : jsstring) :
  In m (if b then [x] else []) <-> b = true /\ x = m.
Proof.
  destruct b; simpl; split.
  - intros [H|[]]. auto.
  - intros [_ H]. auto.
  - intros [].
  - intros [H _]. discriminate.
Qed.

Ltac other_message H :=
  destruct H as [_ H]; unfold tryMessage in H;
  apply lineMsg_inj in H; destruct H as [_ H];
  vm_compute in H; discriminate H.

Lemma tryMessage_in_line lines i n :
  In (tryMessage n) (lineErrors lines i) <->
  n = i + 1 /\ mentionsTry (nth i lines []) = true /\
  hasMatchingExcept lines i = false.
Proof.
  unfold lineErrors, mentionsTry. cbv zeta.
  rewrite !in_app_iff, !in_guard. split.
  - intros [H|[H|[H|[H|[H|[H|[H|H]]]]]]]; try solve [other_message H].
    destruct H as [Hb H]. unfold tryMessage in H.
    apply lineMsg_inj in H. destruct H as [H _].
    apply andb_true_iff in Hb. destruct Hb as [Hinc Hneg].
    apply negb_true_iff in Hneg. auto.
  - intros (-> & Hinc & Hme).
    do 5 right. left. rewrite Hinc, Hme. split; reflexivity.
Qed.

Lemma nth_error_nth_iff (lines : list jsstring) i line :
  nth_error lines i = Some line <-> i < List.length lines /\ nth i lines [] = line.
Proof.
  split.
  - intros H. split.
    + apply nth_error_Some. congruence.
    + now apply nth_error_nth.
  - intros [Hi <-]. now apply nth_error_nth'.
Qed.

Lemma try_reported_iff content n :
  In (tryMessage n) (checkPythonSyntax content) <-> TryRule mentionsTry content n.
Proof.
  rewrite checkPythonSyntax_lines, in_concat. unfold TryRule.
  set (lines := split_nl content). split.
  - intros (msgs & Hmsgs & Hin). apply in_map_iff in Hmsgs.
    destruct Hmsgs as (i & <- & Hi). apply in_seq in Hi.
    apply tryMessage_in_line in Hin. destruct Hin as (-> & Hinc & Hme).
    exists (nth i lines []). replace (i + 1 - 1) with i by lia.
    split; [lia|]. split; [apply nth_error_nth_iff; split; [lia|reflexivity]|].
    split; [exact Hinc|]. apply scanExcept_false. exact Hme.
  - intros (line & Hn & Hnth & Hinc & Hscan).
    apply nth_error_nth_iff in Hnth. destruct Hnth as [Hlt Hline].
    exists (lineErrors lines (n - 1)). split.
    + apply in_map_iff. exists (n - 1). split; [reflexivity|].
      apply in_seq. lia.
    + apply tryMessage_in_line. split; [lia|]. rewrite Hline.
      split; [exact Hinc|]. apply scanExcept_false in Hscan.
      unfold hasMatchingExcept. replace (n - 1 + 1) with n by lia. exact Hscan.
Qed.

(** C5, as the code has it. A "try block without matching except" error is
    reported for line n exactly when line n contains [try:] anywhere and,
    in the lines after it, no line whose trimmed form starts with "except"
    occurs before a line whose trimmed form starts with "def " or "class "
    (or the end of the buffer); the buffer "try:" followed by an indented
    "pass" line yields that error at line 1. *)
Theorem try_without_except_reported :
  (forall content n,
     In (tryMessage n) (checkPythonSyntax content) <->
     TryRule mentionsTry content n) /\
  In (tryMessage 1) (checkPythonSyntax (lit "try:" ++ nl ++ lit "    pass" ++ nl)).
Proof.
  split; [exact try_reported_iff|].
  vm_compute. left. reflexivity.
Qed.

Lemma try_without_except_reported_witness :
  In (tryMessage 1) (checkPythonSyntax (lit "try:" ++ nl ++ lit "    pass")).
Proof.
  apply (proj1 try_without_except_reported).
  exists (lit "try:"). split; [lia|]. split; [reflexivity|].
  split; [reflexivity|].
  intros j l Hj He. destruct j as [|j].
  - injection Hj as <-. vm_compute in He. discriminate He.
  - destruct j; discriminate Hj.
Defined.

(** C5 as stated fails: the line [entry: int = 0] does not start a try
    block, yet the error is reported for it. *)
Lemma try_rule_as_stated_fails :
  ~ (In (tryMessage 1) (checkPythonSyntax (lit "entry: int = 0")) <->
     TryRule startsTryBlock (lit "entry: int = 0") 1).
Proof.
  intros [H _].
  assert (In (tryMessage 1) (checkPythonSyntax (lit "entry: int = 0"))) as Hin.
  { vm_compute. left. reflexivity. }
  destruct (H Hin) as (line & _ & Hnth & Hrec & _).
  vm_compute in Hnth. injection Hnth as <-.
  vm_compute in Hrec. discriminate Hrec.
Qed.

(** ** Running [updateBotEmotion] and [analyzeFile] *)

Lemma significant_self result : significant (Some result) result = false.
Proof.
  unfold significant.
  now rewrite Bool.eqb_reflx, !Nat.eqb_refl.
Qed.

Lemma significant_differs previous result :
  significant (Some previous) result = true <-> Differs previous result.
Proof.
  unfold significant, Differs.
  rewrite !orb_true_iff, !negb_true_iff, !Nat.eqb_neq.
  rewrite Bool.eqb_false_iff. tauto.
Qed.

Section Runs.

Variable basename : jsstring -> jsstring.

Lemma updateBotEmotion_run result d previous st :
  let r := tryCatch (updateBotEmotion basename result d previous) consoleError st in
  fst r = Ok tt /\
  analysisResults (snd r) = analysisResults st /\
  currentFile (snd r) = currentFile st /\
  onEmotionChange (snd r) = onEmotionChange st /\
  emitted (snd r) =
    emitted st ++
    match onEmotionChange st with
    | None => []
    | Some _ =>
        announcement basename result d
          match previous with
          | Some p => Some p
          | None => analysisResults st !! d
          end
    end.
Proof.
  unfold updateBotEmotion, tryCatch, bind, cacheGet, gets, ret, announcement.
  cbv zeta.
  destruct (onEmotionChange st) as [callback|] eqn:Hcb; cbn [fst snd].
  2: { rewrite app_nil_r. auto. }
  destruct (selectEmotion basename result d) as [emotion reason].
  destruct previous as [p|]; cbn [fst snd];
    match goal with
    | |- context [significant ?b result] => destruct (significant b result)
    end; unfold invoke, consoleError; cbn [fst snd];
    try destruct (callback emotion reason) as [[]|e];
    cbn [fst snd analysisResults currentFile onEmotionChange emitted];
    rewrite ?app_nil_r; auto.
Qed.

Lemma analyzeFileWith_ok analysis doc st result :
  analysis (getText doc) = Ok result ->
  analyzeFileWith basename analysis doc st =
  tryCatch
    (updateBotEmotion basename result (fileName doc)
       (analysisResults st !! fileName doc))
    consoleError (cached (fileName doc) result st).
Proof.
  intros H.
  unfold analyzeFileWith, tryCatch, bind, liftExc, setCurrentFile, cacheGet,
    cacheSet, gets, cached.
  cbv zeta. rewrite H. reflexivity.
Qed.

Lemma analyzeFile_cache doc st :
  analysisResults (snd (analyzeFile basename doc st)) =
  <[fileName doc := analyzePythonCode (getText doc)]> (analysisResults st).
Proof.
  unfold analyzeFile. rewrite (analyzeFileWith_ok _ doc st _ eq_refl).
  destruct (updateBotEmotion_run (analyzePythonCode (getText doc))
              (fileName doc) (analysisResults st !! fileName doc)
              (cached (fileName doc) (analyzePythonCode (getText doc)) st))
    as (_ & Hc & _).
  exact Hc.
Qed.

(** What [analyzeFile] hands to a registered listener: the comparison is
    with the entry read before the update or, when there was none, with the
    entry just written. *)
Lemma analyzeFile_emitted doc st callback :
  onEmotionChange st = Some callback ->
  emitted (snd (analyzeFile basename doc st)) =
  emitted st ++
  announcement basename (analyzePythonCode (getText doc)) (fileName doc)
    (Some match analysisResults st !! fileName doc with
          | Some p => p
          | None => analyzePythonCode (getText doc)
          end).
Proof.
  intros Hcb.
  unfold analyzeFile. rewrite (analyzeFileWith_ok _ doc st _ eq_refl).
  destruct (updateBotEmotion_run (analyzePythonCode (getText doc))
              (fileName doc) (analysisResults st !! fileName doc)
              (cached (fileName doc) (analyzePythonCode (getText doc)) st))
    as (_ & _ & _ & _ & He).
  rewrite He. cbn [cached onEmotionChange emitted analysisResults].
  rewrite Hcb. f_equal.
  destruct (analysisResults st !! fileName doc) as [p|]; [reflexivity|].
  now rewrite lookup_insert_eq.
Qed.

Lemma analyzeFile_silent_without_listener doc st :
  onEmotionChange st = None ->
  emitted (snd (analyzeFile basename doc st)) = emitted st.
Proof.
  intros Hcb.
  unfold analyzeFile. rewrite (analyzeFileWith_ok _ doc st _ eq_refl).
  destruct (updateBotEmotion_run (analyzePythonCode (getText doc))
              (fileName doc) (analysisResults st !! fileName doc)
              (cached (fileName doc) (analyzePythonCode (getText doc)) st))
    as (_ & _ & _ & _ & He).
  rewrite He. cbn [cached onEmotionChange emitted]. rewrite Hcb.
  now rewrite app_nil_r.
Qed.

End Runs.

(** ** Claims about the emotion selector and the cache *)

Lemma selectEmotion_rule basename r d e rsn :
  EmotionRule basename r d e rsn <-> selectEmotion basename r d = (e, rsn).
Proof.
  unfold selectEmotion. split.
  - intros H. destruct H as [He|He Hw|He Hw Hl|He Hw Hl]; rewrite ?He, ?Hw.
    + reflexivity.
    + reflexivity.
    + rewrite Hl. reflexivity.
    + apply Nat.eqb_neq in Hl. rewrite Hl. reflexivity.
  - destruct (hasErrors r) eqn:He; [|destruct (hasWarnings r) eqn:Hw;
      [|destruct (Nat.eqb_spec (lineCount r) 0) as [Hl|Hl]]];
      intros H; injection H as <- <-.
    + now apply rule_errors.
    + now apply rule_warnings.
    + now apply rule_empty.
    + now apply rule_clean.
Qed.

Lemma In_announcement basename r d baseline c :
  In c (announcement basename r d baseline) -> c = selectEmotion basename r d.
Proof.
  unfold announcement. destruct (significant baseline r); simpl.
  - intros [H|[]]. now symmetry.
  - intros [].
Qed.

Lemma analyzeFile_calls basename doc st :
  exists calls,
    emitted (snd (analyzeFile basename doc st)) = emitted st ++ calls /\
    forall c, In c calls ->
              c = selectEmotion basename (analyzePythonCode (getText doc))
                    (fileName doc).
Proof.
  destruct (onEmotionChange st) as [callback|] eqn:Hcb.
  - eexists. split; [apply (analyzeFile_emitted basename doc st callback Hcb)|].
    intros c Hc. now apply In_announcement in Hc.
  - exists []. rewrite app_nil_r. split.
    + now apply analyzeFile_silent_without_listener.
    + intros c [].
Qed.

(** C1 (evaluated on the code). With a listener registered, the first
    analysis of a document, one with no prior cache entry, does not invoke
    the listener: the comparison falls back to the entry stored just before
    and so compares the new result with itself. *)
Theorem first_analysis_not_announced basename doc st callback :
  onEmotionChange st = Some callback ->
  analysisResults st !! fileName doc = None ->
  emitted (snd (analyzeFile basename doc st)) = emitted st.
Proof.
  intros Hcb Hnone.
  rewrite (analyzeFile_emitted basename doc st callback Hcb), Hnone.
  unfold announcement. rewrite significant_self. apply app_nil_r.
Qed.

Lemma first_analysis_not_announced_witness :
  emitted (snd (analyzeFile posixBasename sampleDocument freshAnalyzer)) = [].
Proof.
  apply (first_analysis_not_announced posixBasename sampleDocument
           freshAnalyzer quietListener); reflexivity.
Defined.

(** Once a document has a cache entry, the listener is invoked exactly when
    the new result differs from it in hasErrors, errorCount or lineCount. *)
Lemma later_analysis_announced basename doc st callback previous :
  onEmotionChange st = Some callback ->
  analysisResults st !! fileName doc = Some previous ->
  let r := analyzePythonCode (getText doc) in
  (Differs previous r ->
   emitted (snd (analyzeFile basename doc st)) =
   emitted st ++ [selectEmotion basename r (fileName doc)]) /\
  (~ Differs previous r ->
   emitted (snd (analyzeFile basename doc st)) = emitted st).
Proof.
  intros Hcb Hprev r.
  rewrite (analyzeFile_emitted basename doc st callback Hcb), Hprev.
  unfold announcement. fold r.
  destruct (significant (Some previous) r) eqn:Hs.
  - apply significant_differs in Hs. split; [reflexivity | tauto].
  - split.
    + intros Hd. apply significant_differs in Hd. congruence.
    + intros _. apply app_nil_r.
Qed.

(** C7. The emotion and reason computed for a result r of document d follow
    the precedence errors, warnings, empty file, clean file, with the
    reasons built from errorCount, lineCount and the base name of d; every
    call the listener receives from an analysis carries that pair. *)
Theorem emotion_follows_precedence basename :
  (forall r d e rsn,
     EmotionRule basename r d e rsn <-> selectEmotion basename r d = (e, rsn)) /\
  (forall doc st e rsn,
     In (e, rsn) (emitted (snd (analyzeFile basename doc st))) ->
     In (e, rsn) (emitted st) \/
     EmotionRule basename (analyzePythonCode (getText doc)) (fileName doc) e rsn).
Proof.
  split; [apply selectEmotion_rule|].
  intros doc st e rsn Hin.
  destruct (analyzeFile_calls basename doc st) as (calls & Hem & Hcalls).
  rewrite Hem in Hin. apply in_app_iff in Hin. destruct Hin as [Hin|Hin].
  - now left.
  - right. apply selectEmotion_rule. symmetry. now apply Hcalls.
Qed.

Lemma emotion_follows_precedence_witness :
  EmotionRule posixBasename (analyzePythonCode (getText editedDocument))
    (fileName editedDocument) (lit "happy")
    (lit "Great code! 2 lines written, no errors found").
Proof.
  destruct (proj2 (emotion_follows_precedence posixBasename) editedDocument
              (snd (analyzeFile posixBasename sampleDocument freshAnalyzer))
              (lit "happy")
              (lit "Great code! 2 lines written, no errors found"))
    as [H|H].
  - vm_compute. left. reflexivity.
  - vm_compute in H. destruct H.
  - exact H.
Defined.

(** C8. When the analysis of a buffer throws, the cache is left as it was,
    no listener call is made for the event, and the call returns normally:
    the fault is logged, not raised again. *)
Theorem failed_analysis_leaves_cache basename analysis doc st e :
  analysis (getText doc) = Throw e ->
  let r := analyzeFileWith basename analysis doc st in
  fst r = Ok tt /\
  analysisResults (snd r) = analysisResults st /\
  emitted (snd r) = emitted st /\
  currentFile (snd r) = currentFile st /\
  errorLog (snd r) = errorLog st ++ [e].
Proof.
  intros H.
  unfold analyzeFileWith, tryCatch, bind, liftExc, consoleError.
  cbv zeta. rewrite H. cbn. auto.
Qed.

Lemma failed_analysis_leaves_cache_witness :
  let st := snd (analyzeFile posixBasename sampleDocument freshAnalyzer) in
  let r := analyzeFileWith posixBasename failingAnalysis editedDocument st in
  fst r = Ok tt /\
  analysisResults (snd r) = analysisResults st /\
  emitted (snd r) = emitted st /\
  currentFile (snd r) = currentFile st /\
  errorLog (snd r) = errorLog st ++ [JsError (lit "internal fault")].
Proof.
  apply (failed_analysis_leaves_cache posixBasename failingAnalysis
           editedDocument
           (snd (analyzeFile posixBasename sampleDocument freshAnalyzer))
           (JsError (lit "internal fault"))).
  reflexivity.
Defined.

(** C9. Analysing the same buffer content twice in a row for the same
    document stores the same result both times, every field included. *)
Theorem analysis_is_repeatable basename doc st :
  let st1 := snd (analyzeFile basename doc st) in
  let st2 := snd (analyzeFile basename doc st1) in
  exists r,
    r = analyzePythonCode (getText doc) /\
    analysisResults st1 !! fileName doc = Some r /\
    analysisResults st2 !! fileName doc = Some r.
Proof.
  intros st1 st2. exists (analyzePythonCode (getText doc)).
  subst st1 st2. rewrite !analyzeFile_cache, !lookup_insert_eq. auto.
Qed.

(** C10. Every call the listener receives carries one of the three emotion
    labels frustrated, concerned, happy. *)
Theorem announced_emotion_is_known basename doc st :
  exists calls,
    emitted (snd (analyzeFile basename doc st)) = emitted st ++ calls /\
    Forall (fun c => fst c = lit "frustrated" \/ fst c = lit "concerned" \/
                     fst c = lit "happy") calls.
Proof.
  destruct (analyzeFile_calls basename doc st) as (calls & Hem & Hcalls).
  exists calls. split; [exact Hem|].
  apply List.Forall_forall. intros c Hc. rewrite (Hcalls c Hc).
  unfold selectEmotion.
  destruct (hasErrors _); [|destruct (hasWarnings _); [|destruct (_ =? 0)]];
    cbn [fst]; auto.
Qed.

(** ** Further facts about the model *)

(** A fault of the listener itself is caught as well, but only after the
    cache has been updated and the call recorded. *)
Lemma listener_fault_is_logged basename doc st callback previous e :
  onEmotionChange st = Some callback ->
  (forall emotion reason, callback emotion reason = Throw e) ->
  analysisResults st !! fileName doc = Some previous ->
  Differs previous (analyzePythonCode (getText doc)) ->
  let r := analyzeFile basename doc st in
  fst r = Ok tt /\
  analysisResults (snd r) !! fileName doc = Some (analyzePythonCode (getText doc)) /\
  errorLog (snd r) = errorLog st ++ [e].
Proof.
  intros Hcb Hthrow Hprev Hd r. subst r.
  split; [|split].
  - unfold analyzeFile. rewrite (analyzeFileWith_ok _ _ doc st _ eq_refl).
    apply updateBotEmotion_run.
  - rewrite analyzeFile_cache. apply lookup_insert_eq.
  - apply significant_differs in Hd.
    unfold analyzeFile. rewrite (analyzeFileWith_ok _ _ doc st _ eq_refl).
    unfold updateBotEmotion, tryCatch, bind, cacheGet, gets, ret, cached.
    cbn [onEmotionChange]. rewrite Hcb, Hprev.
    destruct (selectEmotion basename _ _) as [emotion reason].
    rewrite Hd. unfold invoke, consoleError. rewrite Hthrow. reflexivity.
Qed.

(** The scenarios of section 8 of the specification. *)
Example scenario_missing_colon :
  let r := analyzePythonCode (lit "def foo(" ++ nl ++ lit "    print(1)" ++ nl) in
  hasErrors r = true /\
  lastError r = Some (lit "Line 1: Missing colon after function definition").
Proof. split; reflexivity. Qed.

Example scenario_long_line :
  let r := analyzePythonCode (repeat 97%N 130) in
  errorCount r = 0 /\ warningCount r = 1 /\
  lastWarning r = Some (lit "Line 1: Line exceeds 120 characters").
Proof. repeat split; reflexivity. Qed.

Example scenario_quality_samples :
  quality (analyzePythonCode
             (lit "if a:" ++ nl ++ lit "  x" ++ nl ++ lit "for b in c:" ++ nl ++
              lit "  y" ++ nl ++ lit "z")) = good /\
  quality (analyzePythonCode
             (lit "for a in b: f(lambda x: x)" ++ nl ++
              lit "for c in d: g(lambda y: y)" ++ nl ++
              lit "for e in f: h(lambda z: z)" ++ nl ++ lit "u" ++ nl ++ lit "v"))
  = improving /\
  quality (analyzePythonCode
             (lit "print(1" ++ nl ++ lit "a" ++ nl ++ lit "b" ++ nl ++
              lit "c" ++ nl ++ lit "d")) = needs_work.
Proof. repeat split; reflexivity. Qed.

(** A change of warnings alone is not announced; one more line is. *)
Example scenario_suppression :
  let st1 := snd (analyzeFile posixBasename editedDocument
                    (snd (analyzeFile posixBasename sampleDocument freshAnalyzer))) in
  let warned :=
    {| fileName := fileName editedDocument;
       languageId := languageId editedDocument;
       getText := lit "x = 1 " ++ nl ++ lit "y = 2" |} in
  let longer :=
    {| fileName := fileName editedDocument;
       languageId := languageId editedDocument;
       getText := getText editedDocument ++ nl ++ lit "z = 3" |} in
  emitted (snd (analyzeFile posixBasename warned st1)) = emitted st1 /\
  emitted (snd (analyzeFile posixBasename longer st1)) =
  emitted st1 ++ [(lit "happy", lit "Great code! 3 lines written, no errors found")].
Proof. split; vm_compute; reflexivity. Qed.

(** ** Which documents are analysed *)

Lemma startsWith_prefix (s p : jsstring) :
  startsWith s p = true <-> exists rest, s = p ++ rest.
Proof.
  revert s. induction p as [|x p IH]; intros s.
  - split; [exists s; reflexivity | intros _; destruct s; reflexivity].
  - destruct s as [|c s]; cbn [startsWith].
    + split; [discriminate | intros [rest H]; discriminate].
    + rewrite andb_true_iff, N.eqb_eq, IH. split.
      * intros [-> [rest ->]]. exists rest. reflexivity.
      * intros [rest H]. injection H as -> ->. split; [reflexivity | eauto].
Qed.

Lemma endsWith_suffix (s p : jsstring) :
  endsWith s p = true <-> exists prefix, s = prefix ++ p.
Proof.
  unfold endsWith. rewrite startsWith_prefix. split.
  - intros [rest H]. exists (rev rest).
    rewrite <- (rev_involutive s), H, rev_app_distr, rev_involutive.
    reflexivity.
  - intros [prefix ->]. exists (rev prefix). apply rev_app_distr.
Qed.

Lemma isPythonFile_true document :
  isPythonFile document = true <->
  languageId document = lit "python" \/
  exists prefix, fileName document = prefix ++ lit ".py".
Proof.
  unfold isPythonFile.
  rewrite orb_true_iff, bool_decide_eq_true, endsWith_suffix. reflexivity.
Qed.

Lemma isPythonFile_false document :
  languageId document <> lit "python" ->
  (forall prefix, fileName document <> prefix ++ lit ".py") ->
  isPythonFile document = false.
Proof.
  intros Hl Hf. apply not_true_is_false. intros H.
  apply isPythonFile_true in H. destruct H as [H|[prefix H]].
  - contradiction.
  - exact (Hf prefix H).
Qed.

Section HandlerFacts.

Variable basename : jsstring -> jsstring.

Lemma analyzeFile_state doc st :
  fst (analyzeFile basename doc st) = Ok tt /\
  currentFile (snd (analyzeFile basename doc st)) = Some (fileName doc) /\
  onEmotionChange (snd (analyzeFile basename doc st)) = onEmotionChange st.
Proof.
  unfold analyzeFile. rewrite (analyzeFileWith_ok basename _ doc st _ eq_refl).
  destruct (updateBotEmotion_run basename (analyzePythonCode (getText doc))
              (fileName doc) (analysisResults st !! fileName doc)
              (cached (fileName doc) (analyzePythonCode (getText doc)) st))
    as (H1 & _ & H3 & H4 & _).
  auto.
Qed.

Lemma perform_analysed a st document :
  analysed a = Some document ->
  analysisResults (snd (perform basename a st)) =
    overwrite (analysisResults st) document /\
  currentFile (snd (perform basename a st)) = Some (fileName document) /\
  onEmotionChange (snd (perform basename a st)) = onEmotionChange st /\
  exists calls,
    emitted (snd (perform basename a st)) = emitted st ++ calls /\
    List.length calls <= 1.
Proof.
  assert (forall st0,
            analysisResults (snd (analyzeFile basename document st0)) =
              overwrite (analysisResults st0) document /\
            currentFile (snd (analyzeFile basename document st0)) =
              Some (fileName document) /\
            onEmotionChange (snd (analyzeFile basename document st0)) =
              onEmotionChange st0 /\
            exists calls,
              emitted (snd (analyzeFile basename document st0)) =
                emitted st0 ++ calls /\
              List.length calls <= 1) as Hrun.
  { intros st0. split; [apply analyzeFile_cache|].
    destruct (analyzeFile_state document st0) as (_ & Hc & Hl).
    split; [exact Hc|]. split; [exact Hl|].
    destruct (onEmotionChange st0) as [callback|] eqn:Hcb.
    - eexists. split; [apply (analyzeFile_emitted basename _ _ callback Hcb)|].
      unfold announcement. destruct (significant _ _); simpl; lia.
    - exists []. rewrite app_nil_r. split; [|simpl; lia].
      now apply analyzeFile_silent_without_listener. }
  destruct a as [[d|]|d active|d|callback]; cbn [analysed perform];
    try discriminate.
  - unfold onDidChangeActiveTextEditor.
    destruct (isPythonFile d); [|discriminate]. intros [= ->].
    unfold bind, setCurrentFile. cbn [fst snd].
    match goal with
    | |- context [analyzeFile basename document ?s] =>
        destruct (Hrun s) as (H1 & H2 & H3 & H4)
    end.
    cbn [analysisResults onEmotionChange emitted] in *.
    destruct (analyzeFile basename document _) as [[[]|e] st'] eqn:Hr;
      cbn [fst snd] in *; auto.
  - unfold onDidChangeTextDocument.
    destruct (isPythonFile d && active); [|discriminate]. intros [= ->].
    apply Hrun.
  - unfold onDidSaveTextDocument.
    destruct (isPythonFile d); [|discriminate]. intros [= ->].
    apply Hrun.
Qed.

Lemma perform_ignored a st :
  analysed a = None ->
  analysisResults (snd (perform basename a st)) = analysisResults st /\
  currentFile (snd (perform basename a st)) = currentFile st /\
  emitted (snd (perform basename a st)) = emitted st.
Proof.
  destruct a as [[d|]|d active|d|callback]; cbn [analysed perform].
  - unfold onDidChangeActiveTextEditor.
    destruct (isPythonFile d); [discriminate|]. auto.
  - auto.
  - unfold onDidChangeTextDocument.
    destruct (isPythonFile d && active); [discriminate|]. auto.
  - unfold onDidSaveTextDocument.
    destruct (isPythonFile d); [discriminate|]. auto.
  - auto.
Qed.

End HandlerFacts.

(** ** The analyzer under a sequence of host actions *)

(** X1. A document that is neither tagged python nor named with the suffix
    .py is ignored by all three subscriptions, and a text change of a
    document that is not the active editor's is ignored whatever the
    document: the analyzer state is left as it was. *)
Theorem other_documents_are_ignored basename :
  (forall document st,
     languageId document <> lit "python" ->
     (forall prefix, fileName document <> prefix ++ lit ".py") ->
     onDidChangeActiveTextEditor basename (Some document) st = (Ok tt, st) /\
     (forall isActive,
        onDidChangeTextDocument basename document isActive st = (Ok tt, st)) /\
     onDidSaveTextDocument basename document st = (Ok tt, st)) /\
  (forall document st,
     onDidChangeTextDocument basename document false st = (Ok tt, st)).
Proof.
  split.
  - intros document st Hl Hf.
    pose proof (isPythonFile_false document Hl Hf) as Hno.
    unfold onDidChangeActiveTextEditor, onDidChangeTextDocument,
      onDidSaveTextDocument.
    rewrite Hno. auto.
  - intros document st. unfold onDidChangeTextDocument.
    now rewrite andb_false_r.
Qed.

Lemma other_documents_are_ignored_witness :
  onDidSaveTextDocument posixBasename headerDocument freshAnalyzer =
  (Ok tt, freshAnalyzer).
Proof.
  apply (proj1 (other_documents_are_ignored posixBasename) headerDocument
           freshAnalyzer).
  - discriminate.
  - intros prefix H.
    assert (endsWith (fileName headerDocument) (lit ".py") = true) as He
      by (apply endsWith_suffix; eauto).
    vm_compute in He. discriminate He.
Defined.



Lemma performAll_cache basename actions st :
  analysisResults (performAll basename actions st) =
  fold_left overwrite (omap analysed actions) (analysisResults st).
Proof.
  revert st. induction actions as [|a actions IH]; intros st.
  - reflexivity.
  - cbn [performAll omap list_omap]. rewrite IH.
    destruct (analysed a) as [document|] eqn:Ha.
    + destruct (perform_analysed basename a st document Ha) as (Hc & _).
      rewrite Hc. reflexivity.
    + destruct (perform_ignored basename a st Ha) as (Hc & _).
      rewrite Hc. reflexivity.
Qed.

Lemma overwrite_keeps_keys documents m f :
  is_Some (m !! f) -> is_Some (fold_left overwrite documents m !! f).
Proof.
  revert m. induction documents as [|d documents IH]; intros m Hm.
  - exact Hm.
  - cbn [fold_left]. apply IH. unfold overwrite.
    destruct (decide (fileName d = f)) as [<-|Hne].
    + rewrite lookup_insert_eq. eauto.
    + rewrite lookup_insert_ne by exact Hne. exact Hm.
Qed.

(** X3. After any sequence of host actions the cache is the initial cache
    overwritten, in action order, by the analyses of the documents the
    actions caused to be analysed: the last write wins, and no entry is
    ever removed. *)
Theorem cache_is_overwritten_in_order basename actions st :
  analysisResults (performAll basename actions st) =
    fold_left overwrite (omap analysed actions) (analysisResults st) /\
  (forall f, is_Some (analysisResults st !! f) ->
             is_Some (analysisResults (performAll basename actions st) !! f)).
Proof.
  split; [apply performAll_cache|].
  intros f Hf. rewrite performAll_cache. now apply overwrite_keeps_keys.
Qed.

Lemma cache_is_overwritten_in_order_witness :
  let st := snd (analyzeFile posixBasename sampleDocument freshAnalyzer) in
  is_Some
    (analysisResults
       (performAll posixBasename
          [Saved headerDocument; TextChanged editedDocument true] st)
     !! fileName sampleDocument).
Proof.
  intros st.
  apply (proj2 (cache_is_overwritten_in_order posixBasename
                  [Saved headerDocument; TextChanged editedDocument true] st)).
  vm_compute. eauto.
Defined.

(** X4. One host action hands the listener at most one call, and none when
    the action does not cause an analysis. *)
Theorem one_call_per_action basename a st :
  exists calls,
    emitted (snd (perform basename a st)) = emitted st ++ calls /\
    List.length calls <= 1 /\
    (analysed a = None -> calls = []).
Proof.
  destruct (analysed a) as [document|] eqn:Ha.
  - destruct (perform_analysed basename a st document Ha)
      as (_ & _ & _ & calls & Hem & Hlen).
    exists calls. split; [exact Hem|]. split; [exact Hlen|]. discriminate.
  - destruct (perform_ignored basename a st Ha) as (_ & _ & Hem).
    exists []. rewrite app_nil_r. split; [exact Hem|].
    split; [simpl; lia | reflexivity].
Qed.

Lemma one_call_per_action_witness :
  exists calls,
    emitted (snd (perform posixBasename (CallbackSet quietListener) newAnalyzer)) =
    emitted newAnalyzer ++ calls /\ calls = [].
Proof.
  destruct (one_call_per_action posixBasename (CallbackSet quietListener)
              newAnalyzer) as (calls & Hem & _ & Hnone).
  exists calls. split; [exact Hem | apply Hnone; reflexivity].
Defined.

(** X5. Analysing a document again with its text unchanged never calls the
    listener: a save without edits is not announced. *)
Theorem unchanged_text_is_silent basename document st :
  let st1 := snd (analyzeFile basename document st) in
  emitted (snd (analyzeFile basename document st1)) = emitted st1.
Proof.
  intros st1.
  destruct (onEmotionChange st1) as [callback|] eqn:Hcb.
  - rewrite (analyzeFile_emitted basename document st1 callback Hcb).
    subst st1. rewrite analyzeFile_cache, lookup_insert_eq.
    unfold announcement. rewrite significant_self. apply app_nil_r.
  - now apply analyzeFile_silent_without_listener.
Qed.




(** ** Blank lines and bounds on the counters *)

Lemma dropWhile_nil (f : N -> bool) (s : jsstring) :
  dropWhile f s = [] -> List.Forall (fun c => f c = true) s.
Proof.
  induction s as [|c s IH]; cbn [dropWhile]; intros H.
  - constructor.
  - destruct (f c) eqn:Hc; [|discriminate]. constructor; auto.
Qed.

Lemma dropWhile_head (f : N -> bool) (s : jsstring) c r :
  dropWhile f s = c :: r -> f c = false.
Proof.
  induction s as [|x s IH]; cbn [dropWhile]; intros H.
  - discriminate.
  - destruct (f x) eqn:Hx; [auto|]. injection H as -> _. exact Hx.
Qed.

Lemma dropWhile_all (f : N -> bool) (s : jsstring) :
  List.Forall (fun c => f c = true) s -> dropWhile f s = [].
Proof.
  induction 1 as [|c s Hc _ IH]; cbn [dropWhile]; [reflexivity|].
  now rewrite Hc.
Qed.

(** A line is blank exactly when all its code units are white space. *)
Lemma blank_iff_spaces line :
  trim line = [] <-> List.Forall (fun c => isWhiteSpace c = true) line.
Proof.
  unfold trim, trimEnd, trimStart. split.
  - intros H. apply (f_equal (@rev N)) in H. rewrite rev_involutive in H.
    cbn [rev] in H. apply dropWhile_nil in H.
    destruct (dropWhile isWhiteSpace line) as [|c r] eqn:Hd.
    + now apply dropWhile_nil.
    + apply dropWhile_head in Hd.
      apply List.Forall_forall with (x := c) in H; [congruence|].
      apply in_rev. rewrite rev_involutive. now left.
  - intros H. rewrite (dropWhile_all _ _ H). reflexivity.
Qed.

Lemma startsWith_head s x p : startsWith s (x :: p) = true -> In x s.
Proof.
  destruct s as [|c s]; cbn [startsWith]; [discriminate|].
  intros H. apply andb_true_iff in H. destruct H as [H _].
  apply N.eqb_eq in H. subst. now left.
Qed.

Lemma includes_head s x p : includes s (x :: p) = true -> In x s.
Proof.
  induction s as [|c s IH]; cbn [includes]; intros H.
  - apply orb_true_iff in H. destruct H as [H|H]; [|discriminate].
    now apply startsWith_head in H.
  - apply orb_true_iff in H. destruct H as [H|H].
    + now apply startsWith_head in H.
    + right. auto.
Qed.

Lemma spaces_exclude line x p :
  List.Forall (fun c => isWhiteSpace c = true) line ->
  isWhiteSpace x = false -> includes line (x :: p) = false.
Proof.
  intros Hall Hx. apply not_true_is_false. intros H.
  apply includes_head in H.
  apply List.Forall_forall with (x := x) in Hall; [congruence | exact H].
Qed.

Lemma spaces_exclude_lit line a s :
  List.Forall (fun c => isWhiteSpace c = true) line ->
  isWhiteSpace (N_of_ascii a) = false -> includes line (lit (String a s)) = false.
Proof. apply spaces_exclude. Qed.

Lemma spaces_countChar line x :
  List.Forall (fun c => isWhiteSpace c = true) line ->
  isWhiteSpace x = false -> countChar x line = 0.
Proof.
  intros Hall Hx. unfold countChar.
  induction Hall as [|c s Hc _ IH]; cbn [List.filter]; [reflexivity|].
  destruct (N.eqb_spec x c) as [->|_]; [congruence | exact IH].
Qed.

Lemma lineErrors_blank lines i :
  nonBlank (nth i lines []) = false -> lineErrors lines i = [].
Proof.
  unfold nonBlank. intros H. apply negb_false_iff in H.
  apply bool_decide_eq_true in H. apply blank_iff_spaces in H.
  unfold lineErrors. cbv zeta.
  set (line := nth i lines []) in *.
  rewrite !(spaces_exclude_lit line _ _ H) by reflexivity.
  rewrite !(spaces_countChar line _ H) by reflexivity.
  reflexivity.
Qed.

Lemma lineErrors_length lines i : List.length (lineErrors lines i) <= 8.
Proof.
  unfold lineErrors. cbv zeta.
  rewrite !length_app.
  repeat match goal with
         | |- context [if ?b then _ else _] => destruct b
         end; cbn [List.length]; lia.
Qed.

Lemma list_sum_cons a l : list_sum (a :: l) = a + list_sum l.
Proof. reflexivity. Qed.

Lemma length_concat_bound (per : nat -> list jsstring) (w : nat -> nat) idx :
  (forall i, List.length (per i) <= w i) ->
  List.length (concat (map per idx)) <= list_sum (map w idx).
Proof.
  intros Hper. induction idx as [|i idx IH]; cbn [map concat]; rewrite ?list_sum_cons.
  - simpl. lia.
  - rewrite length_app. specialize (Hper i). lia.
Qed.

Lemma sum_over_lines (weight : jsstring -> nat) lines :
  list_sum (map (fun i => weight (nth i lines [])) (seq 0 (List.length lines))) =
  list_sum (map weight lines).
Proof.
  induction lines as [|l lines IH] using rev_ind.
  - reflexivity.
  - rewrite length_app, Nat.add_comm. cbn [List.length Nat.add].
    rewrite seq_S, !map_app, !list_sum_app. cbn [map Nat.add]. rewrite !list_sum_cons.
    rewrite app_nth2, Nat.sub_diag by lia. cbn [nth].
    rewrite <- IH. f_equal. f_equal. apply map_ext_in.
    intros i Hi. apply in_seq in Hi. now rewrite app_nth1 by lia.
Qed.

Lemma sum_nonBlank k lines :
  list_sum (map (fun l => k * b2n (nonBlank l)) lines) =
  k * List.length (List.filter nonBlank lines).
Proof.
  induction lines as [|l lines IH]; cbn [map List.filter]; rewrite ?list_sum_cons.
  - simpl. lia.
  - rewrite IH. destruct (nonBlank l); cbn [b2n List.length]; lia.
Qed.

(** X7. Every error comes from a non-blank line, and a line raises at most
    eight: errorCount is at most 8 times lineCount, so a buffer of white
    space only has no errors. *)
Theorem errors_bounded_by_lineCount content :
  errorCount (analyzePythonCode content) <=
    8 * lineCount (analyzePythonCode content) /\
  (lineCount (analyzePythonCode content) = 0 ->
   hasErrors (analyzePythonCode content) = false).
Proof.
  assert (errorCount (analyzePythonCode content) <=
          8 * lineCount (analyzePythonCode content)) as Hb.
  { unfold analyzePythonCode. cbv zeta. cbn [errorCount lineCount].
    rewrite analysis_lines, checkPythonSyntax_lines.
    rewrite <- sum_nonBlank, <- sum_over_lines.
    apply length_concat_bound. intros i.
    destruct (nonBlank (nth i (split_nl content) [])) eqn:Hn.
    - pose proof (lineErrors_length (split_nl content) i). cbn [b2n]. lia.
    - rewrite (lineErrors_blank _ _ Hn). simpl. lia. }
  split; [exact Hb|].
  intros H0. rewrite H0 in Hb.
  unfold analyzePythonCode in *. cbv zeta in *. cbn [errorCount hasErrors] in *.
  apply Nat.ltb_ge. lia.
Qed.

Lemma errors_bounded_by_lineCount_witness :
  hasErrors (analyzePythonCode (lit "   " ++ nl ++ lit "  ")) = false.
Proof.
  apply (proj2 (errors_bounded_by_lineCount (lit "   " ++ nl ++ lit "  "))).
  reflexivity.
Defined.

(** ** Bounds on the complexity *)

(** The four keyword groups exclude one another on one trimmed line. *)
Lemma keyword_groups_le t :
  1 * b2n (startsWith t (lit "if ") || startsWith t (lit "elif ")) +
  2 * b2n (startsWith t (lit "for ") || startsWith t (lit "while ")) +
  1 * b2n (startsWith t (lit "try:") || startsWith t (lit "except ")) +
  1 * b2n (startsWith t (lit "def ") || startsWith t (lit "class ")) <= 2.
Proof.
  destruct (startsWith t (lit "if ")) eqn:H1,
           (startsWith t (lit "elif ")) eqn:H2,
           (startsWith t (lit "for ")) eqn:H3,
           (startsWith t (lit "while ")) eqn:H4,
           (startsWith t (lit "try:")) eqn:H5,
           (startsWith t (lit "except ")) eqn:H6,
           (startsWith t (lit "def ")) eqn:H7,
           (startsWith t (lit "class ")) eqn:H8;
    cbn [orb b2n]; try lia; exfalso;
    repeat match goal with
           | H : startsWith _ _ = true |- _ =>
               apply startsWith_prefix in H; destruct H as [? H];
               vm_compute in H
           end;
    congruence.
Qed.

Lemma b2n_le b : b2n b <= 1.
Proof. destruct b; simpl; lia. Qed.

Lemma lineContribution_le line : lineContribution line <= 6.
Proof.
  unfold lineContribution. cbv zeta.
  pose proof (keyword_groups_le (trim line)) as Hk.
  pose proof (b2n_le (includes (trim line) (lit " and ") ||
                      includes (trim line) (lit " or "))).
  pose proof (b2n_le (includes (trim line) (lit "lambda "))).
  pose proof (b2n_le (bool_decide
                        (8 < List.length line - List.length (trimStart line)))).
  lia.
Qed.

(** X8. One line adds at most 6 to the complexity, because the keyword
    prefixes exclude one another: complexity is at most 6 times lineCount
    (so 0 for a buffer without a non-blank line), and one line can reach 6. *)
Theorem complexity_bounded_by_lineCount :
  (forall content,
     complexity (analyzePythonCode content) <=
     6 * lineCount (analyzePythonCode content)) /\
  complexity (analyzePythonCode
                (lit "         for x in a and b: f(lambda q: q)")) = 6.
Proof.
  split; [|reflexivity]. intros content.
  unfold analyzePythonCode. cbv zeta. cbn [complexity lineCount].
  rewrite calculateComplexity_sum.
  induction (List.filter _ (split_nl content)) as [|l lines IH].
  - simpl. lia.
  - cbn [map List.length]. rewrite list_sum_cons.
    pose proof (lineContribution_le l). lia.
Qed.

(** X9. lastSuccess is present exactly when the quality is good or
    improving, and a result with errors always has quality needs_work. *)
Theorem lastSuccess_iff_quality content :
  let r := analyzePythonCode content in
  (is_Some (lastSuccess r) <-> quality r <> needs_work) /\
  (hasErrors r = true -> quality r = needs_work).
Proof.
  unfold analyzePythonCode. cbv zeta.
  cbn [lastSuccess quality hasErrors]. unfold assessCodeQuality.
  set (e := List.length (checkPythonSyntax content)).
  set (n := List.length (List.filter _ (split_nl content))).
  set (c := calculateComplexity _).
  destruct (Nat.ltb_spec 0 e), (Nat.eqb_spec e 0), (Nat.ltb_spec c 10),
    (Nat.ltb_spec 0 n); cbn [negb andb]; try lia;
    (split; [split; [intros [x Hx]; congruence | intros Hq; try congruence; eauto]
            | intros; congruence]).
Qed.

Lemma lastSuccess_iff_quality_witness :
  quality (analyzePythonCode (lit "print(1")) = needs_work.
Proof.
  apply (proj2 (lastSuccess_iff_quality (lit "print(1"))). reflexivity.
Defined.

(** ** Messages carry their line number and come in line order *)

Lemma sorted_app (l1 l2 : list nat) :
  StronglySorted le l1 -> StronglySorted le l2 ->
  (forall x y, In x l1 -> In y l2 -> x <= y) ->
  StronglySorted le (l1 ++ l2).
Proof.
  intros H1 H2 Hle. induction H1 as [|a l1 Hs IH Ha]; cbn [app].
  - exact H2.
  - constructor.
    + apply IH. intros x y Hx Hy. apply Hle; [now right | exact Hy].
    + apply List.Forall_forall. intros y Hy. apply in_app_iff in Hy.
      destruct Hy as [Hy|Hy].
      * apply List.Forall_forall with (x := y) in Ha; auto.
      * apply Hle; [now left | exact Hy].
Qed.

Lemma sorted_repeat k n : StronglySorted le (repeat k n).
Proof.
  induction n as [|n IH]; cbn [repeat]; constructor; [exact IH|].
  apply List.Forall_forall. intros y Hy. apply repeat_spec in Hy. lia.
Qed.

Lemma numbered_repeat (ms : list jsstring) k :
  (forall m, In m ms -> HasLineNumber m k) ->
  List.Forall2 HasLineNumber ms (repeat k (List.length ms)).
Proof.
  induction ms as [|m ms IH]; intros H; cbn [List.length repeat]; constructor.
  - apply H. now left.
  - apply IH. intros m' Hm'. apply H. now right.
Qed.

Lemma numbered_concat (per : nat -> list jsstring) n a :
  (forall i m, In m (per i) -> HasLineNumber m (i + 1)) ->
  exists numbers,
    List.Forall2 HasLineNumber (concat (map per (seq a n))) numbers /\
    StronglySorted le numbers /\
    List.Forall (fun k => a + 1 <= k <= a + n) numbers.
Proof.
  intros Hper. revert a. induction n as [|n IH]; intros a.
  - exists []. cbn [seq map concat]. repeat constructor.
  - destruct (IH (S a)) as (numbers & Hf & Hs & Hr).
    exists (repeat (a + 1) (List.length (per a)) ++ numbers).
    cbn [seq map concat]. split; [|split].
    + apply List.Forall2_app; [|exact Hf].
      apply numbered_repeat. intros m Hm. now apply Hper.
    + apply sorted_app; [apply sorted_repeat | exact Hs |].
      intros x y Hx Hy. apply repeat_spec in Hx. subst x.
      apply List.Forall_forall with (x := y) in Hr; [lia | exact Hy].
    + apply List.Forall_app. split.
      * apply List.Forall_forall. intros x Hx. apply repeat_spec in Hx. lia.
      * eapply List.Forall_impl; [|exact Hr]. cbv beta. intros k Hk. lia.
Qed.

Lemma in_guard_eq (b : bool) (x m : jsstring) :
  In m (if b then [x] else []) -> m = x.
Proof. destruct b; simpl; [intros [H|[]]; auto | intros []]. Qed.

Lemma lineErrors_numbered lines i m :
  In m (lineErrors lines i) -> HasLineNumber m (i + 1).
Proof.
  unfold lineErrors. cbv zeta. rewrite !in_app_iff.
  intros H; repeat destruct H as [H|H];
    apply in_guard_eq in H; subst m; eexists; unfold lineMsg; reflexivity.
Qed.

Lemma matchNote_token prev s tok :
  matchNote prev s = Some tok -> tok = lit "TODO" \/ tok = lit "FIXME".
Proof.
  revert prev. induction s as [|c s IH]; intros prev; cbn [matchNote].
  - discriminate.
  - cbv zeta.
    destruct (_ && tokenAt (c :: s) (lit "TODO")); [intros [= <-]; auto|].
    destruct (_ && tokenAt (c :: s) (lit "FIXME")); [intros [= <-]; auto|].
    apply IH.
Qed.

Lemma lineWarnings_numbered lines i m :
  In m (lineWarnings lines i) -> HasLineNumber m (i + 1).
Proof.
  unfold lineWarnings. cbv zeta. rewrite !in_app_iff.
  intros H; repeat destruct H as [H|H];
    try (apply in_guard_eq in H; subst m; eexists; unfold lineMsg; reflexivity).
  destruct (matchNote None (nth i lines [])) as [tok|]; [|destruct H].
  destruct H as [<-|[]].
  exists (lit "Contains " ++ tok ++ lit " note").
  unfold lineMsg. rewrite <- !app_assoc. reflexivity.
Qed.

(** X10. Every error message and every warning message has the form
    "Line k: ..." where k is the number of a physical line of the buffer
    (1 up to the number of lines of the newline split), and within each
    list the line numbers never decrease. *)
Theorem messages_in_line_order content :
  LineOrdered (checkPythonSyntax content) (List.length (split_nl content)) /\
  LineOrdered (checkPythonWarnings content) (List.length (split_nl content)).
Proof.
  rewrite checkPythonSyntax_lines, checkPythonWarnings_lines.
  unfold LineOrdered. split.
  - destruct (numbered_concat (lineErrors (split_nl content))
                (List.length (split_nl content)) 0
                (lineErrors_numbered (split_nl content)))
      as (numbers & Hf & Hs & Hr).
    exists numbers. auto.
  - destruct (numbered_concat (lineWarnings (split_nl content))
                (List.length (split_nl content)) 0
                (lineWarnings_numbered (split_nl content)))
      as (numbers & Hf & Hs & Hr).
    exists numbers. auto.
Qed.

(** ** Each error message has one cause *)

Ltac find_disjunct :=
  first [ split; [assumption | reflexivity]
        | left; split; [assumption | reflexivity]
        | right; find_disjunct ].

Ltac message_cause H :=
  destruct H as [?Hb H]; apply lineMsg_inj in H; destruct H as [?Hn H];
  first [ vm_compute in H; discriminate H | idtac ].

Lemma reported_in_buffer content n (text : string) (cond : jsstring -> bool) :
  (forall lines i k,
     In (lineMsg k (String ":" text)) (lineErrors lines i) <->
     k = i + 1 /\ cond (nth i lines []) = true) ->
  In (lineMsg n (String ":" text)) (checkPythonSyntax content) <->
  LineSatisfies content n cond.
Proof.
  intros Hline.
  rewrite checkPythonSyntax_lines, in_concat. unfold LineSatisfies.
  set (lines := split_nl content). split.
  - intros (msgs & Hmsgs & Hin). apply in_map_iff in Hmsgs.
    destruct Hmsgs as (i & <- & Hi). apply in_seq in Hi.
    apply Hline in Hin. destruct Hin as (-> & Hc).
    exists (nth i lines []). replace (i + 1 - 1) with i by lia.
    split; [lia|]. split; [apply nth_error_nth_iff; split; [lia|reflexivity]|].
    exact Hc.
  - intros (line & Hn & Hnth & Hc).
    apply nth_error_nth_iff in Hnth. destruct Hnth as [Hlt Hline'].
    exists (lineErrors lines (n - 1)). split.
    + apply in_map_iff. exists (n - 1). split; [reflexivity|].
      apply in_seq. lia.
    + apply Hline. split; [lia|]. now rewrite Hline'.
Qed.

Ltac one_cause :=
  intros lines i k; unfold lineErrors; cbv zeta;
  rewrite !in_app_iff, !in_guard; rewrite ?nonBlank_length; split;
  [ intros H; repeat destruct H as [H|H]; message_cause H;
    split; [congruence | assumption]
  | intros [-> Hc]; find_disjunct ].

Lemma if_cause lines i k :
  In (lineMsg k ": Missing colon after if statement") (lineErrors lines i) <->
  k = i + 1 /\ lacksColon "if " (nth i lines []) = true.
Proof. revert lines i k. unfold lacksColon. one_cause. Qed.

Lemma def_cause lines i k :
  In (lineMsg k ": Missing colon after function definition")
     (lineErrors lines i) <->
  k = i + 1 /\ lacksColon "def " (nth i lines []) = true.
Proof. revert lines i k. unfold lacksColon. one_cause. Qed.

Lemma for_cause lines i k :
  In (lineMsg k ": Missing colon after for loop") (lineErrors lines i) <->
  k = i + 1 /\ lacksColon "for " (nth i lines []) = true.
Proof. revert lines i k. unfold lacksColon. one_cause. Qed.

Lemma while_cause lines i k :
  In (lineMsg k ": Missing colon after while loop") (lineErrors lines i) <->
  k = i + 1 /\ lacksColon "while " (nth i lines []) = true.
Proof. revert lines i k. unfold lacksColon. one_cause. Qed.

Lemma print_cause lines i k :
  In (lineMsg k ": Missing closing parenthesis in print statement")
     (lineErrors lines i) <->
  k = i + 1 /\ openPrint (nth i lines []) = true.
Proof. revert lines i k. unfold openPrint. one_cause. Qed.

Lemma quotes_cause lines i k :
  In (lineMsg k ": Unmatched quotes") (lineErrors lines i) <->
  k = i + 1 /\ oddQuotes (nth i lines []) = true.
Proof. revert lines i k. unfold oddQuotes. one_cause. Qed.

Lemma undefined_cause lines i k :
  In (lineMsg k ": Possible undefined variable usage") (lineErrors lines i) <->
  k = i + 1 /\ mentionsUndefined (nth i lines []) = true.
Proof. revert lines i k. unfold mentionsUndefined. one_cause. Qed.

(** X11. A "Missing colon after ..." error is reported for line n exactly
    when line n contains the keyword followed by a space ("if ", "def ",
    "for ", "while ") anywhere, contains no colon anywhere and is not
    blank. *)
Theorem missing_colon_reported content n :
  (In (lineMsg n ": Missing colon after if statement")
      (checkPythonSyntax content) <->
   LineSatisfies content n (lacksColon "if ")) /\
  (In (lineMsg n ": Missing colon after function definition")
      (checkPythonSyntax content) <->
   LineSatisfies content n (lacksColon "def ")) /\
  (In (lineMsg n ": Missing colon after for loop")
      (checkPythonSyntax content) <->
   LineSatisfies content n (lacksColon "for ")) /\
  (In (lineMsg n ": Missing colon after while loop")
      (checkPythonSyntax content) <->
   LineSatisfies content n (lacksColon "while ")).
Proof.
  repeat split; apply reported_in_buffer; auto using if_cause, def_cause,
    for_cause, while_cause.
Qed.

Lemma missing_colon_reported_witness :
  In (lineMsg 2 ": Missing colon after if statement")
     (checkPythonSyntax (lit "x = 1" ++ nl ++ lit "y = 2 if x else 3")).
Proof.
  apply (proj1 (missing_colon_reported
                  (lit "x = 1" ++ nl ++ lit "y = 2 if x else 3") 2)).
  exists (lit "y = 2 if x else 3").
  split; [lia|]. split; reflexivity.
Defined.

(** X12. For line n: "Missing closing parenthesis in print statement" is
    reported exactly when the line contains "print(" and no ")" anywhere;
    "Unmatched quotes" exactly when its number of single quotes or its
    number of double quotes is odd; "Possible undefined variable usage"
    exactly when it contains "=", "+" and "undefined". *)
Theorem other_errors_reported content n :
  (In (lineMsg n ": Missing closing parenthesis in print statement")
      (checkPythonSyntax content) <->
   LineSatisfies content n openPrint) /\
  (In (lineMsg n ": Unmatched quotes") (checkPythonSyntax content) <->
   LineSatisfies content n oddQuotes) /\
  (In (lineMsg n ": Possible undefined variable usage")
      (checkPythonSyntax content) <->
   LineSatisfies content n mentionsUndefined).
Proof.
  repeat split; apply reported_in_buffer; auto using print_cause,
    quotes_cause, undefined_cause.
Qed.

Lemma other_errors_reported_witness :
  In (lineMsg 1 ": Unmatched quotes")
     (checkPythonSyntax (lit "s = 'it's'")).
Proof.
  apply (proj1 (proj2 (other_errors_reported (lit "s = 'it's'") 1))).
  exists (lit "s = 'it's'").
  split; [lia|]. split; reflexivity.
Defined.

(** ** Each warning message has one cause *)

Lemma note_message n (tok : string) :
  lineMsg n ": Contains " ++ lit tok ++ lit " note" =
  lit "Line " ++ toString n ++ lit ": Contains " ++ lit tok ++ lit " note".
Proof. unfold lineMsg. now rewrite <- !app_assoc. Qed.

Lemma lineWarnings_guards lines i :
  lineWarnings lines i =
  let line := nth i lines [] in
  let n := i + 1 in
  (if 120 <? List.length line
   then [lineMsg n ": Line exceeds 120 characters"] else []) ++
  (if endsWithSpace line && nonBlank line
   then [lineMsg n ": Trailing whitespace"] else []) ++
  (if noteIs "TODO" line then [lineMsg n ": Contains TODO note"] else []) ++
  (if noteIs "FIXME" line then [lineMsg n ": Contains FIXME note"] else []) ++
  (if startsWithTab line
   then [lineMsg n ": Uses tab indentation (prefer spaces)"] else []) ++
  (if mixedIndent line
   then [lineMsg n ": Mixed indentation (tabs and spaces)"] else []).
Proof.
  unfold lineWarnings, noteIs. cbv zeta. rewrite nonBlank_length.
  f_equal. f_equal.
  destruct (matchNote None (nth i lines [])) as [tok|] eqn:Hm.
  - destruct (matchNote_token _ _ _ Hm) as [-> | ->].
    + rewrite bool_decide_eq_true_2 by reflexivity.
      rewrite bool_decide_eq_false_2 by (intros H; vm_compute in H; discriminate H).
      cbn [app]. rewrite (note_message _ "TODO"). reflexivity.
    + rewrite bool_decide_eq_false_2 by (intros H; vm_compute in H; discriminate H).
      rewrite bool_decide_eq_true_2 by reflexivity.
      cbn [app]. rewrite (note_message _ "FIXME"). reflexivity.
  - rewrite !bool_decide_eq_false_2 by discriminate. reflexivity.
Qed.

Lemma reported_in_lines (per : nat -> list jsstring) (msg : nat -> jsstring)
    (cond : jsstring -> bool) (lines : list jsstring) n :
  (forall i k, In (msg k) (per i) <->
               k = i + 1 /\ cond (nth i lines []) = true) ->
  In (msg n) (concat (map per (seq 0 (List.length lines)))) <->
  exists line, 1 <= n /\ nth_error lines (n - 1) = Some line /\ cond line = true.
Proof.
  intros Hline. rewrite in_concat. split.
  - intros (msgs & Hmsgs & Hin). apply in_map_iff in Hmsgs.
    destruct Hmsgs as (i & <- & Hi). apply in_seq in Hi.
    apply Hline in Hin. destruct Hin as (-> & Hc).
    exists (nth i lines []). replace (i + 1 - 1) with i by lia.
    split; [lia|]. split; [apply nth_error_nth_iff; split; [lia|reflexivity]|].
    exact Hc.
  - intros (line & Hn & Hnth & Hc).
    apply nth_error_nth_iff in Hnth. destruct Hnth as [Hlt Hline'].
    exists (per (n - 1)). split.
    + apply in_map_iff. exists (n - 1). split; [reflexivity|].
      apply in_seq. lia.
    + apply Hline. split; [lia|]. now rewrite Hline'.
Qed.

Ltac one_warning_cause :=
  intros lines i k; rewrite lineWarnings_guards; cbv zeta;
  rewrite !in_app_iff, !in_guard; split;
  [ intros H; repeat destruct H as [H|H]; message_cause H;
    split; [congruence | assumption]
  | intros [-> Hc]; find_disjunct ].

Lemma long_cause lines i k :
  In (lineMsg k ": Line exceeds 120 characters") (lineWarnings lines i) <->
  k = i + 1 /\ (fun l => 120 <? List.length l) (nth i lines []) = true.
Proof. revert lines i k. one_warning_cause. Qed.

Lemma trailing_cause lines i k :
  In (lineMsg k ": Trailing whitespace") (lineWarnings lines i) <->
  k = i + 1 /\ (fun l => endsWithSpace l && nonBlank l) (nth i lines []) = true.
Proof. revert lines i k. one_warning_cause. Qed.

Lemma todo_cause lines i k :
  In (lineMsg k ": Contains TODO note") (lineWarnings lines i) <->
  k = i + 1 /\ noteIs "TODO" (nth i lines []) = true.
Proof. revert lines i k. one_warning_cause. Qed.

Lemma fixme_cause lines i k :
  In (lineMsg k ": Contains FIXME note") (lineWarnings lines i) <->
  k = i + 1 /\ noteIs "FIXME" (nth i lines []) = true.
Proof. revert lines i k. one_warning_cause. Qed.

Lemma tab_cause lines i k :
  In (lineMsg k ": Uses tab indentation (prefer spaces)") (lineWarnings lines i) <->
  k = i + 1 /\ startsWithTab (nth i lines []) = true.
Proof. revert lines i k. one_warning_cause. Qed.

Lemma mixed_cause lines i k :
  In (lineMsg k ": Mixed indentation (tabs and spaces)") (lineWarnings lines i) <->
  k = i + 1 /\ mixedIndent (nth i lines []) = true.
Proof. revert lines i k. one_warning_cause. Qed.

Lemma warning_in_buffer content n (text : string) (cond : jsstring -> bool) :
  (forall lines i k,
     In (lineMsg k (String ":" text)) (lineWarnings lines i) <->
     k = i + 1 /\ cond (nth i lines []) = true) ->
  In (lineMsg n (String ":" text)) (checkPythonWarnings content) <->
  LineSatisfies content n cond.
Proof.
  intros Hline. rewrite checkPythonWarnings_lines.
  apply (reported_in_lines _ (fun k => lineMsg k (String ":" text))).
  apply Hline.
Qed.

Lemma LineSatisfies_is content n (cond : jsstring -> bool) (P : jsstring -> Prop) :
  (forall line, cond line = true <-> P line) ->
  LineSatisfies content n cond <-> LineIs content n P.
Proof.
  intros H. unfold LineSatisfies, LineIs.
  split; intros (line & Hn & Hl & Hc); exists line;
    (split; [exact Hn|]); (split; [exact Hl|]); now apply H.
Qed.

Lemma endsWithSpace_last line :
  endsWithSpace line = true <->
  exists pre c, line = pre ++ [c] /\ isWhiteSpace c = true.
Proof.
  unfold endsWithSpace. split.
  - destruct (rev line) as [|c r] eqn:Hr; [discriminate|]. intros Hc.
    exists (rev r), c. split; [|exact Hc].
    rewrite <- (rev_involutive line), Hr. reflexivity.
  - intros (pre & c & -> & Hc). rewrite rev_app_distr. exact Hc.
Qed.

Lemma startsWithTab_head line :
  startsWithTab line = true <-> exists rest, line = 9%N :: rest.
Proof.
  split.
  - destruct line as [|c rest]; [discriminate|].
    destruct (N.eqb_spec c 9%N) as [->|Hne]; [eauto|].
    unfold startsWithTab.
    repeat match goal with
           | |- context [match ?p with _ => _ end] => destruct p
           end; try discriminate; congruence.
  - intros [rest ->]. reflexivity.
Qed.

Lemma dropWhile_repeat x k (rest : jsstring) :
  match rest with [] => True | c :: _ => c <> x end ->
  dropWhile (N.eqb x) (repeat x k ++ rest) = rest.
Proof.
  intros Hrest. induction k as [|k IH]; cbn [repeat app dropWhile].
  - destruct rest as [|c r]; [reflexivity|]. cbn [dropWhile].
    destruct (N.eqb_spec x c); [congruence | reflexivity].
  - now rewrite N.eqb_refl.
Qed.

Lemma dropWhile_split x (s : jsstring) :
  exists k, s = repeat x k ++ dropWhile (N.eqb x) s.
Proof.
  induction s as [|c s [k IH]]; cbn [dropWhile].
  - exists 0. reflexivity.
  - destruct (N.eqb_spec x c) as [<-|Hne].
    + exists (S k). cbn [repeat app]. now rewrite <- IH.
    + exists 0. reflexivity.
Qed.

Lemma mixedIndent_tab (s : jsstring) :
  mixedIndent (9%N :: s) =
  match dropWhile (N.eqb 9%N) (9%N :: s) with
  | c :: _ => N.eqb c 32%N
  | [] => false
  end.
Proof.
  cbn [mixedIndent]. destruct (dropWhile _ _) as [|c r]; [reflexivity|].
  destruct (N.eqb_spec c 32%N) as [->|Hne]; [reflexivity|].
  repeat match goal with
         | |- context [match ?p with _ => _ end] => destruct p
         end; try reflexivity; congruence.
Qed.

Lemma mixedIndent_space (s : jsstring) :
  mixedIndent (32%N :: s) =
  match dropWhile (N.eqb 32%N) (32%N :: s) with
  | c :: _ => N.eqb c 9%N
  | [] => false
  end.
Proof.
  cbn [mixedIndent]. destruct (dropWhile _ _) as [|c r]; [reflexivity|].
  destruct (N.eqb_spec c 9%N) as [->|Hne]; [reflexivity|].
  repeat match goal with
         | |- context [match ?p with _ => _ end] => destruct p
         end; try reflexivity; congruence.
Qed.

Lemma mixedIndent_other c (s : jsstring) :
  c <> 9%N -> c <> 32%N -> mixedIndent (c :: s) = false.
Proof.
  intros H9 H32. unfold mixedIndent.
  repeat match goal with
         | |- context [match ?p with _ => _ end] => destruct p
         end; try reflexivity; congruence.
Qed.

Lemma mixedIndent_start line : mixedIndent line = true <-> MixedStart line.
Proof.
  unfold MixedStart. split.
  - destruct line as [|c s]; [discriminate|].
    destruct (N.eq_dec c 9%N) as [->|H9]; [|destruct (N.eq_dec c 32%N) as [->|H32]].
    + rewrite mixedIndent_tab.
      destruct (dropWhile_split 9%N (9%N :: s)) as [k Hk].
      destruct (dropWhile (N.eqb 9%N) (9%N :: s)) as [|d r]; [discriminate|].
      intros Hd. apply N.eqb_eq in Hd. subst d.
      exists k, r. split; [|left; exact Hk].
      destruct k; [discriminate Hk | lia].
    + rewrite mixedIndent_space.
      destruct (dropWhile_split 32%N (32%N :: s)) as [k Hk].
      destruct (dropWhile (N.eqb 32%N) (32%N :: s)) as [|d r]; [discriminate|].
      intros Hd. apply N.eqb_eq in Hd. subst d.
      exists k, r. split; [|right; exact Hk].
      destruct k; [discriminate Hk | lia].
    + now rewrite mixedIndent_other.
  - intros (k & rest & Hk & [-> | ->]); (destruct k as [|k]; [lia|]);
      cbn [repeat app].
    + rewrite mixedIndent_tab.
      change (9%N :: repeat 9%N k ++ 32%N :: rest)
        with (repeat 9%N (S k) ++ 32%N :: rest).
      rewrite dropWhile_repeat by discriminate. reflexivity.
    + rewrite mixedIndent_space.
      change (32%N :: repeat 32%N k ++ 9%N :: rest)
        with (repeat 32%N (S k) ++ 9%N :: rest).
      rewrite dropWhile_repeat by discriminate. reflexivity.
Qed.

(** X13. For line n of a buffer: "Line exceeds 120 characters" is reported
    exactly when the line has more than 120 code units; "Trailing
    whitespace" exactly when its last code unit is white space and the line
    is not blank; "Uses tab indentation" exactly when its first code unit is
    a tab; "Mixed indentation" exactly when it starts with tabs followed by
    a space or with spaces followed by a tab. *)
Theorem layout_warnings_reported content n :
  (In (lineMsg n ": Line exceeds 120 characters") (checkPythonWarnings content) <->
   LineIs content n (fun line => 120 < List.length line)) /\
  (In (lineMsg n ": Trailing whitespace") (checkPythonWarnings content) <->
   LineIs content n (fun line =>
     (exists pre c, line = pre ++ [c] /\ isWhiteSpace c = true) /\
     trim line <> [])) /\
  (In (lineMsg n ": Uses tab indentation (prefer spaces)")
      (checkPythonWarnings content) <->
   LineIs content n (fun line => exists rest, line = 9%N :: rest)) /\
  (In (lineMsg n ": Mixed indentation (tabs and spaces)")
      (checkPythonWarnings content) <->
   LineIs content n MixedStart).
Proof.
  split; [|split; [|split]].
  - rewrite (warning_in_buffer content n _ _ long_cause).
    apply LineSatisfies_is. intros line. apply Nat.ltb_lt.
  - rewrite (warning_in_buffer content n _ _ trailing_cause).
    apply LineSatisfies_is. intros line.
    rewrite andb_true_iff, endsWithSpace_last. unfold nonBlank.
    rewrite negb_true_iff, bool_decide_eq_false. reflexivity.
  - rewrite (warning_in_buffer content n _ _ tab_cause).
    apply LineSatisfies_is. intros line. apply startsWithTab_head.
  - rewrite (warning_in_buffer content n _ _ mixed_cause).
    apply LineSatisfies_is. intros line. apply mixedIndent_start.
Qed.

Lemma layout_warnings_reported_witness :
  In (lineMsg 1 ": Mixed indentation (tabs and spaces)")
     (checkPythonWarnings ([9%N; 9%N; 32%N] ++ lit "x = 1")).
Proof.
  apply (proj2 (proj2 (proj2 (layout_warnings_reported
                                ([9%N; 9%N; 32%N] ++ lit "x = 1") 1)))).
  exists ([9%N; 9%N; 32%N] ++ lit "x = 1").
  split; [lia|]. split; [reflexivity|].
  exists 2, (lit "x = 1"). split; [lia|]. left. reflexivity.
Defined.

(** X14. With Windows line ends the carriage return stays on the line after
    the newline split and counts as trailing white space: every non-blank
    line that ends with a carriage return gets the "Trailing whitespace"
    warning, and the result has warnings. *)
Theorem carriage_return_is_trailing_space content n line :
  1 <= n ->
  nth_error (split_nl content) (n - 1) = Some (line ++ [13%N]) ->
  trim line <> [] ->
  In (lineMsg n ": Trailing whitespace") (checkPythonWarnings content) /\
  hasWarnings (analyzePythonCode content) = true.
Proof.
  intros Hn Hnth Hblank.
  assert (In (lineMsg n ": Trailing whitespace") (checkPythonWarnings content))
    as Hin.
  { apply (warning_in_buffer content n _ _ trailing_cause).
    exists (line ++ [13%N]). split; [exact Hn|]. split; [exact Hnth|].
    apply andb_true_iff. split.
    - apply endsWithSpace_last. exists line, 13%N. auto.
    - unfold nonBlank. apply negb_true_iff, bool_decide_eq_false.
      intros Hb. apply Hblank. apply blank_iff_spaces.
      apply blank_iff_spaces in Hb. apply List.Forall_app in Hb. tauto. }
  split; [exact Hin|].
  unfold analyzePythonCode. cbv zeta. cbn [hasWarnings].
  destruct (checkPythonWarnings content); [destruct Hin | reflexivity].
Qed.

Lemma carriage_return_is_trailing_space_witness :
  In (lineMsg 2 ": Trailing whitespace")
     (checkPythonWarnings (lit "x = 1" ++ [13%N; 10%N] ++ lit "y = 2" ++ [13%N; 10%N])) /\
  hasWarnings
    (analyzePythonCode (lit "x = 1" ++ [13%N; 10%N] ++ lit "y = 2" ++ [13%N; 10%N]))
  = true.
Proof.
  apply (carriage_return_is_trailing_space
           (lit "x = 1" ++ [13%N; 10%N] ++ lit "y = 2" ++ [13%N; 10%N]) 2
           (lit "y = 2")).
  - lia.
  - reflexivity.
  - discriminate.
Defined.

(** ** TODO and FIXME notes *)

Lemma skipn_prefix (tok post : jsstring) :
  skipn (List.length tok) (tok ++ post) = post.
Proof. induction tok as [|c tok IH]; [reflexivity | exact IH]. Qed.

Lemma tokenAt_post s tok :
  tokenAt s tok = true <-> exists post, s = tok ++ post /\ boundaryAfter post.
Proof.
  unfold tokenAt, boundaryAfter.
  rewrite andb_true_iff, startsWith_prefix. split.
  - intros [[post ->] H]. exists post. split; [reflexivity|].
    rewrite skipn_prefix in H.
    destruct post; [exact I | now apply negb_true_iff].
  - intros (post & -> & H). split; [eauto|].
    rewrite skipn_prefix.
    destruct post; [reflexivity | now apply negb_true_iff].
Qed.

Lemma boundaryBefore_nil prev :
  boundaryBefore prev [] <->
  match prev with None => true | Some p => negb (isWordChar p) end = true.
Proof.
  unfold boundaryBefore. cbn [rev].
  destruct prev as [p|]; [rewrite negb_true_iff|]; tauto.
Qed.

Lemma boundaryBefore_cons prev c pre :
  boundaryBefore prev (c :: pre) <-> boundaryBefore (Some c) pre.
Proof.
  unfold boundaryBefore. cbn [rev].
  destruct (rev pre) as [|x r]; cbn [app]; tauto.
Qed.

Lemma matchNote_found prev s :
  is_Some (matchNote prev s) <->
  exists tok pre post,
    (tok = lit "TODO" \/ tok = lit "FIXME") /\
    s = pre ++ tok ++ post /\ boundaryBefore prev pre /\ boundaryAfter post.
Proof.
  revert prev. induction s as [|c s IH]; intros prev; cbn [matchNote].
  - split; [intros [x Hx]; discriminate|].
    intros (tok & pre & post & [-> | ->] & H & _);
      destruct pre; discriminate H.
  - cbv zeta.
    set (boundary := match prev with
                     | None => true
                     | Some p => negb (isWordChar p)
                     end).
    assert (forall tok,
              boundary && tokenAt (c :: s) tok = true <->
              exists post, c :: s = [] ++ tok ++ post /\
                           boundaryBefore prev [] /\ boundaryAfter post) as Hhead.
    { intros tok. rewrite andb_true_iff, tokenAt_post.
      pose proof (boundaryBefore_nil prev) as Hnil. fold boundary in Hnil.
      cbn [app]. split.
      - intros [Hb (post & Hs & Hp)]. exists post. tauto.
      - intros (post & Hs & Hb & Hp). split; [tauto | eauto]. }
    destruct (boundary && tokenAt (c :: s) (lit "TODO")) eqn:Ht.
    { split; [|eauto]. intros _. apply Hhead in Ht.
      destruct Ht as (post & Hs & Hb & Hp).
      exists (lit "TODO"), [], post. auto. }
    destruct (boundary && tokenAt (c :: s) (lit "FIXME")) eqn:Hf.
    { split; [|eauto]. intros _. apply Hhead in Hf.
      destruct Hf as (post & Hs & Hb & Hp).
      exists (lit "FIXME"), [], post. auto. }
    rewrite IH. split.
    + intros (tok & pre & post & Htok & -> & Hb & Hp).
      exists tok, (c :: pre), post. split; [exact Htok|].
      split; [reflexivity|]. split; [|exact Hp].
      now apply boundaryBefore_cons.
    + intros (tok & pre & post & Htok & Hs & Hb & Hp).
      destruct pre as [|x pre].
      * exfalso. destruct Htok as [-> | ->].
        -- assert (boundary && tokenAt (c :: s) (lit "TODO") = true) as Hx
             by (apply Hhead; eauto).
           congruence.
        -- assert (boundary && tokenAt (c :: s) (lit "FIXME") = true) as Hx
             by (apply Hhead; eauto).
           congruence.
      * cbn [app] in Hs. injection Hs as <- ->.
        exists tok, pre, post. split; [exact Htok|].
        split; [reflexivity|]. split; [|exact Hp].
        now apply boundaryBefore_cons in Hb.
Qed.

Lemma note_found line :
  noteIs "TODO" line = true \/ noteIs "FIXME" line = true <->
  WholeWord (lit "TODO") line \/ WholeWord (lit "FIXME") line.
Proof.
  unfold noteIs, WholeWord. rewrite !bool_decide_eq_true.
  pose proof (matchNote_found None line) as Hfound. split.
  - intros H.
    assert (is_Some (matchNote None line)) as Hs by (destruct H as [-> | ->]; eauto).
    apply Hfound in Hs.
    destruct Hs as (tok & pre & post & [-> | ->] & Hl & Hb & Hp); eauto 6.
  - intros H.
    assert (is_Some (matchNote None line)) as [tok Htok].
    { apply Hfound. destruct H as [(pre & post & H)|(pre & post & H)].
      - exists (lit "TODO"), pre, post. tauto.
      - exists (lit "FIXME"), pre, post. tauto. }
    destruct (matchNote_token _ _ _ Htok) as [-> | ->]; auto.
Qed.

(** X15. A "Contains TODO note" or "Contains FIXME note" warning is reported
    for line n exactly when the line has TODO or FIXME as a whole word (no
    letter, digit or underscore right before or right after it); one line
    never gets both. *)
Theorem note_warning_reported content n :
  (In (lineMsg n ": Contains TODO note") (checkPythonWarnings content) \/
   In (lineMsg n ": Contains FIXME note") (checkPythonWarnings content) <->
   LineIs content n (fun line =>
     WholeWord (lit "TODO") line \/ WholeWord (lit "FIXME") line)) /\
  ~ (In (lineMsg n ": Contains TODO note") (checkPythonWarnings content) /\
     In (lineMsg n ": Contains FIXME note") (checkPythonWarnings content)).
Proof.
  rewrite (warning_in_buffer content n _ _ todo_cause).
  rewrite (warning_in_buffer content n _ _ fixme_cause).
  unfold LineSatisfies, LineIs. split; [split|].
  - intros [(line & Hn & Hl & Ht)|(line & Hn & Hl & Hf)];
      exists line; (split; [exact Hn|]); (split; [exact Hl|]);
      apply note_found; auto.
  - intros (line & Hn & Hl & Hw). apply note_found in Hw.
    destruct Hw as [Ht|Hf]; [left | right]; exists line; auto.
  - intros [(l1 & _ & Hl1 & Ht) (l2 & _ & Hl2 & Hf)].
    rewrite Hl1 in Hl2. injection Hl2 as <-.
    unfold noteIs in *. apply bool_decide_eq_true in Ht, Hf.
    rewrite Ht in Hf. vm_compute in Hf. discriminate Hf.
Qed.

Lemma note_warning_reported_witness :
  In (lineMsg 1 ": Contains TODO note")
     (checkPythonWarnings (lit "x = 1  # TODO: tidy")) \/
  In (lineMsg 1 ": Contains FIXME note")
     (checkPythonWarnings (lit "x = 1  # TODO: tidy")).
Proof.
  apply (proj1 (note_warning_reported (lit "x = 1  # TODO: tidy") 1)).
  exists (lit "x = 1  # TODO: tidy").
  split; [lia|]. split; [reflexivity|]. left.
  exists (lit "x = 1  # "), (lit ": tidy").
  split; [reflexivity|]. split; reflexivity.
Defined.

(** ** The presentation shell *)

Lemma bot_stop_timer b :
  Bot.TimerHeld b ->
  Bot.TimerHeld (Bot.stopWaterReminder b) /\
  Bot.waterReminderTimer (Bot.stopWaterReminder b) = None.
Proof.
  unfold Bot.TimerHeld, Bot.stopWaterReminder. intros H.
  destruct (Bot.waterReminderTimer b) as [h|] eqn:Ht;
    cbn [Bot.running Bot.waterReminderTimer].
  - rewrite H. split; [apply difference_diag_L | reflexivity].
  - rewrite Ht. auto.
Qed.

Lemma bot_step_timer op b : Bot.TimerHeld b -> Bot.TimerHeld (Bot.step op b).
Proof.
  intros H. destruct (bot_stop_timer b H) as [Hstop Hnone].
  destruct op; cbn [Bot.step];
    try solve [ unfold Bot.TimerHeld in *;
                unfold Bot.showBot, Bot.updateEmotion, Bot.updateCodeStats,
                  Bot.updateSessionStats, Bot.startTimer, Bot.stopTimer,
                  Bot.postMessage, Bot.updateBotInterface, Bot.panelDisposed,
                  Bot.withPanel;
                cbv zeta; cbn [Bot.panel];
                destruct (Bot.panel b);
                cbn [Bot.running Bot.waterReminderTimer Bot.panel]; exact H ].
  - unfold Bot.TimerHeld in *. unfold Bot.startWaterReminder. cbv zeta.
    cbn [Bot.running Bot.waterReminderTimer].
    rewrite Hstop, Hnone. apply union_empty_r_L.
  - exact Hstop.
  - unfold Bot.TimerHeld in *. unfold Bot.dispose. cbv zeta.
    destruct (Bot.panel (Bot.stopWaterReminder b));
      cbn [Bot.panelDisposed Bot.withPanel Bot.running Bot.waterReminderTimer];
      exact Hstop.
Qed.

Lemma bot_run_timer ops b : Bot.TimerHeld b -> Bot.TimerHeld (Bot.run ops b).
Proof.
  unfold Bot.run. revert b. induction ops as [|op ops IH]; intros b H.
  - exact H.
  - cbn [fold_left]. apply IH. now apply bot_step_timer.
Qed.

(** X16. Whatever calls are made on a new BotInterface, at most one
    reminder interval is running and it is the one the object holds;
    after stopWaterReminder or dispose none is running, and stopping twice
    is the same as stopping once. *)
Theorem one_reminder_interval ops :
  let b := Bot.run ops Bot.initial in
  Bot.running b = match Bot.waterReminderTimer b with
                  | Some h => {[h]}
                  | None => ∅
                  end /\
  Bot.running (Bot.stopWaterReminder b) = ∅ /\
  Bot.running (Bot.dispose b) = ∅ /\
  Bot.stopWaterReminder (Bot.stopWaterReminder b) = Bot.stopWaterReminder b.
Proof.
  intros b.
  assert (Bot.TimerHeld b) as H by (apply bot_run_timer; reflexivity).
  assert (Bot.waterReminderTimer (Bot.stopWaterReminder b) = None) as Hnone.
  { unfold Bot.stopWaterReminder.
    destruct (Bot.waterReminderTimer b) eqn:Hb; [reflexivity | exact Hb]. }
  pose proof (bot_step_timer Bot.StopWaterReminder b H) as Hs.
  pose proof (bot_step_timer Bot.Dispose b H) as Hd.
  unfold Bot.TimerHeld in Hs, Hd. cbn [Bot.step] in Hs, Hd.
  split; [exact H|]. split; [|split].
  - now rewrite Hs, Hnone.
  - rewrite Hd. unfold Bot.dispose. cbv zeta.
    destruct (Bot.panel (Bot.stopWaterReminder b));
      cbn [Bot.panelDisposed Bot.withPanel Bot.waterReminderTimer];
      now rewrite Hnone.
  - unfold Bot.stopWaterReminder at 1. now rewrite Hnone.
Qed.

Lemma bot_stop_frame b :
  Bot.panel (Bot.stopWaterReminder b) = Bot.panel b /\
  Bot.getWebviewContent (Bot.stopWaterReminder b) = Bot.getWebviewContent b.
Proof.
  unfold Bot.stopWaterReminder.
  destruct (Bot.waterReminderTimer b); split; reflexivity.
Qed.

Lemma bot_dispose_panel b : Bot.panel (Bot.dispose b) = None.
Proof.
  unfold Bot.dispose. cbv zeta.
  destruct (Bot.panel (Bot.stopWaterReminder b)) eqn:Hp; [reflexivity | exact Hp].
Qed.

Lemma bot_step_panel op b : Bot.PanelCurrent b -> Bot.PanelCurrent (Bot.step op b).
Proof.
  unfold Bot.PanelCurrent. intros H.
  destruct (bot_stop_frame b) as [Hsp Hsc].
  destruct op; cbn [Bot.step].
  11: { intros q Hq. rewrite bot_dispose_panel in Hq. discriminate Hq. }
  9: { intros q Hq. rewrite Hsp in Hq. rewrite Hsc. now apply H. }
  8: { unfold Bot.startWaterReminder. cbv zeta. cbn [Bot.panel].
       intros q Hq. rewrite Hsp in Hq.
       change (Bot.html q = Some (Bot.getWebviewContent (Bot.stopWaterReminder b))).
       rewrite Hsc. now apply H. }
  all: unfold Bot.showBot, Bot.updateEmotion, Bot.updateCodeStats,
      Bot.updateSessionStats, Bot.startTimer, Bot.stopTimer, Bot.postMessage,
      Bot.updateBotInterface, Bot.panelDisposed, Bot.withPanel;
    cbv zeta; cbn [Bot.panel];
    destruct (Bot.panel b) as [p0|] eqn:Hp; cbn [Bot.panel Bot.html];
    intros q Hq; try discriminate Hq; try (injection Hq as <-);
    cbn [Bot.html]; try reflexivity;
    try (rewrite (H _ eq_refl); reflexivity);
    try (apply H; congruence).
Qed.

Lemma bot_run_panel ops b : Bot.PanelCurrent b -> Bot.PanelCurrent (Bot.run ops b).
Proof.
  unfold Bot.run. revert b. induction ops as [|op ops IH]; intros b H.
  - exact H.
  - cbn [fold_left]. apply IH. now apply bot_step_panel.
Qed.

(** X17. Whatever calls are made on a new BotInterface, an open panel always
    shows the content built from the current emotion, reason, session
    figures and code statistics: no update leaves the panel stale. *)
Theorem panel_shows_current_state ops p :
  Bot.panel (Bot.run ops Bot.initial) = Some p ->
  Bot.html p = Some (Bot.getWebviewContent (Bot.run ops Bot.initial)).
Proof.
  apply (bot_run_panel ops Bot.initial). intros q Hq. discriminate Hq.
Qed.

Lemma panel_shows_current_state_witness :
  let ops := [Bot.ShowBot;
              Bot.UpdateEmotion (lit "frustrated")
                (Some (lit "Found 1 syntax error(s) in app.py"))] in
  exists p,
    Bot.panel (Bot.run ops Bot.initial) = Some p /\
    Bot.html p = Some (Bot.getWebviewContent (Bot.run ops Bot.initial)).
Proof.
  intros ops. eexists. split; [reflexivity|].
  apply (panel_shows_current_state ops). reflexivity.
Defined.

Lemma bot_step_closed op b :
  Bot.isShowBot op = false -> Bot.panel b = None ->
  Bot.panel (Bot.step op b) = None.
Proof.
  intros Hop Hp.
  destruct op; try discriminate Hop; cbn [Bot.step];
    unfold Bot.updateEmotion, Bot.updateCodeStats,
      Bot.updateSessionStats, Bot.startTimer, Bot.stopTimer, Bot.postMessage,
      Bot.updateBotInterface, Bot.panelDisposed, Bot.dispose,
      Bot.startWaterReminder, Bot.stopWaterReminder, Bot.withPanel;
    cbv zeta; cbn [Bot.panel]; rewrite ?Hp; try reflexivity;
    destruct (Bot.waterReminderTimer b); cbn [Bot.panel]; rewrite ?Hp;
    reflexivity.
Qed.

Lemma bot_step_reveals op b p q :
  Bot.isShowBot op = false -> Bot.panel b = Some p ->
  Bot.panel (Bot.step op b) = Some q -> Bot.reveals q = Bot.reveals p.
Proof.
  intros Hop Hp.
  destruct op; try discriminate Hop; cbn [Bot.step];
    unfold Bot.updateEmotion, Bot.updateCodeStats,
      Bot.updateSessionStats, Bot.startTimer, Bot.stopTimer, Bot.postMessage,
      Bot.updateBotInterface, Bot.panelDisposed, Bot.dispose,
      Bot.startWaterReminder, Bot.stopWaterReminder, Bot.withPanel;
    cbv zeta; cbn [Bot.panel]; rewrite ?Hp;
    try (destruct (Bot.waterReminderTimer b)); cbn [Bot.panel]; rewrite ?Hp;
    cbn [Bot.panel]; intros Hq; try discriminate Hq;
    injection Hq as <-; reflexivity.
Qed.

(** X18. Only showBot opens or reveals the panel: a sequence of calls without
    showBot leaves a closed panel closed, and any single call other than
    showBot leaves the reveal count of an open panel as it was.  Emotion
    updates therefore never take the focus. *)
Theorem only_showBot_opens_panel :
  (forall ops b,
     forallb (fun op => negb (Bot.isShowBot op)) ops = true ->
     Bot.panel b = None -> Bot.panel (Bot.run ops b) = None) /\
  (forall op b p q,
     Bot.isShowBot op = false -> Bot.panel b = Some p ->
     Bot.panel (Bot.step op b) = Some q -> Bot.reveals q = Bot.reveals p).
Proof.
  split; [|exact bot_step_reveals].
  unfold Bot.run. intros ops. induction ops as [|op ops IH]; intros b Hops Hp.
  - exact Hp.
  - cbn [forallb] in Hops. apply andb_true_iff in Hops.
    destruct Hops as [Hop Hops]. apply negb_true_iff in Hop.
    cbn [fold_left]. apply IH; [exact Hops|]. now apply bot_step_closed.
Qed.

Lemma only_showBot_opens_panel_witness :
  Bot.panel (Bot.run [Bot.UpdateEmotion (lit "happy") None;
                      Bot.StartWaterReminder; Bot.StartTimer]
               Bot.initial) = None.
Proof.
  apply (proj1 only_showBot_opens_panel); reflexivity.
Defined.
